(** * CCWebSocket: connection registry and message relay

    A shallow embedding of [src/websocket-bridge.ts] (class [CCWebSocket])
    and the properties of its registry, its inbound protocol and its
    outbound operations.

    What lies outside the class is modelled as an environment:
    - the transport: every connection handle [ws] is a reference into a
      store of handle objects carrying [readyState], the metadata slot
      [data], and whether a write on the handle currently fails;
    - the clock [Date.now()] and the generator [Math.random()], read from
      two sources one value per call;
    - the JSON built-ins [JSON.stringify] and [JSON.parse], a parameter
      ([Platform]) of every property; an instance ([RefJSON]) serves to
      run the methods on sample worlds;
    - the application callbacks ([MessageHandlers]): a call is recorded
      and either returns or throws a value ([Thrown]: an object with a
      message, [null] or [undefined], or another value); what a callback
      does by calling the bridge again is a further call of the bridge,
      not a part of the call that invoked it;
    - the console and every call made on a handle, recorded in a trace.

    JavaScript runs a method to its end before the next event: a method is
    a function from the world before to its outcome and the world after. *)

From Stdlib Require Import ZArith List String Ascii Lia Bool.
From Stdlib Require Import DecimalString.
From stdpp Require Import base list strings pretty.
Import ListNotations.

Open Scope string_scope.
Open Scope list_scope.

(* ===================================================================== *)
(** ** JavaScript values that cross the bridge *)
(* ===================================================================== *)

(** The values [JSON.parse] returns and [JSON.stringify] prints.  Numbers
    are the integer-valued ones; [undefined] is [None] of [option JSON]. *)
#[local] Unset Elimination Schemes.
Inductive JSON : Type :=
| JNull
| JBool (b : bool)
| JNum (n : Z)
| JStr (s : string)
| JArr (items : list JSON)
| JObj (fields : list (string * JSON)).
#[local] Set Elimination Schemes.

(** An [Error] object with its [message]: what the engine, [Bun.serve]
    and the transport throw. *)
Record Exn : Type := Error { message : string }.

(** [null] and [undefined]. *)
Inductive Nullish : Type := JSNull | JSUndefined.

(** What a [throw] statement can throw, as a [catch] block that reads
    [error.message] tells the values apart: an object with a message;
    [null] or [undefined], on which the read itself throws; any other
    value (a string, a number, an object without a message), on which the
    read gives [undefined]. *)
Inductive Thrown : Type :=
| Raised (e : Exn)
| ThrownNullish (n : Nullish)
| ThrownOther.
Coercion Raised : Exn >-> Thrown.

Definition is_nullish (t : Thrown) : bool :=
  match t with
  | ThrownNullish _ => true
  | _ => false
  end.

Inductive Result (A : Type) : Type :=
| Ok (a : A)
| Throw (e : Thrown).
Arguments Ok {A} a.
Arguments Throw {A} e.

(** The built-ins the class calls.  [JSON_parse] throws on a text that is
    not JSON; [null_property k] is the [TypeError] the engine throws when
    the property [k] of a parsed [null] is read ([data.type]);
    [no_message n x] is the [TypeError] it throws when [x.message] is read
    and the variable [x] holds [null] or [undefined]. *)
Class Platform : Type := {
  JSON_stringify : JSON -> string;
  JSON_parse : string -> Exn + JSON;
  null_property : string -> Exn;
  no_message : Nullish -> string -> Exn
}.

(** [obj.k] on a parsed value, for the two keys the class reads ("type",
    "data"): an own property of an object (the last one wins when a key is
    repeated), [undefined] on numbers, booleans, strings and arrays, a
    [TypeError] on [null]. *)
Fixpoint lookup_field (k : string) (fields : list (string * JSON)) : option JSON :=
  match fields with
  | [] => None
  | (k', v) :: rest =>
      match lookup_field k rest with
      | Some v' => Some v'
      | None => if String.eqb k' k then Some v else None
      end
  end.

Definition get_prop `{Platform} (v : JSON) (k : string) : Exn + option JSON :=
  match v with
  | JNull => inl (null_property k)
  | JObj fields => inr (lookup_field k fields)
  | _ => inr None
  end.

(** [if (s)] on an optional string: [undefined] and the empty string are
    falsy. *)
Definition truthy (o : option string) : bool :=
  match o with
  | Some s => negb (String.eqb s "")
  | None => false
  end.

(** [s || d] *)
Definition js_or (o : option string) (d : string) : string :=
  match o with
  | Some s => if String.eqb s "" then d else s
  | None => d
  end.

(** [v === 'ping'] *)
Definition is_ping (v : option JSON) : bool :=
  match v with
  | Some (JStr s) => String.eqb s "ping"
  | _ => false
  end.

(* ===================================================================== *)
(** ** Interfaces of the module *)
(* ===================================================================== *)

Record WebSocketConfig : Type := {
  cfg_port : option Z;
  cfg_host : option string;
  cfg_path : option string
}.

(** [Required<WebSocketConfig>] *)
Record Config : Type := { port : Z; host : string; path : string }.

Record WebSocketStatus : Type := {
  isRunning : bool;
  connectedClients : nat;
  st_port : Z;
  st_host : string
}.

Record ClientMessage : Type := {
  cm_type : option JSON;
  cm_data : option JSON;
  cm_timestamp : Z;
  cm_clientId : string
}.

(** A callback slot: unset, or a function that returns ([None]) or throws
    ([Some t]) on its arguments. *)
Definition Callback (A : Type) : Type := option (A -> option Thrown).

Record MessageHandlers : Type := {
  onMessage : Callback ClientMessage;
  onClientConnect : Callback string;
  onClientDisconnect : Callback string;
  onCustomMessage : Callback (option JSON * option JSON * string)
}.

Definition no_handlers : MessageHandlers :=
  {| onMessage := None; onClientConnect := None;
     onClientDisconnect := None; onCustomMessage := None |}.

(* ===================================================================== *)
(** ** The transport, the clock, the console *)
(* ===================================================================== *)

(** A reference to a connection handle. *)
Definition href : Type := nat.

(** [ws.data = { clientId, connectedAt }] *)
Record WsData : Type := { clientId : string; connectedAt : Z }.

Record WS : Type := {
  readyState : Z;
  data : option WsData;
  sendError : option Exn      (* [ws.send] throws this, if any *)
}.

Record Server : Type := { hostname : string; srv_port : Z }.

Inductive Level : Type := LLog | LWarn | LError.

Inductive Event : Type :=
| EConsole (lvl : Level) (args : list string)
| EWsSend (ws : href) (frame : string) (ok : bool)
| EWsClose (ws : href) (code : Z) (reason : string)
| EServerStop
| EOnMessage (m : ClientMessage)
| EOnClientConnect (id : string)
| EOnClientDisconnect (id : string)
| EOnCustomMessage (a : option JSON * option JSON * string).

(** The fields of a [CCWebSocket] object.  [clients] is the [Map]: entries
    in insertion order, keys unique. *)
Record CCWebSocket : Type := {
  server : option Server;
  clients : list (string * href);
  config : Config;
  startTime : Z;
  handlers : MessageHandlers
}.

Record Env : Type := {
  heap : href -> WS;
  now_src : nat -> Z;          (* the successive readings of Date.now() *)
  now_idx : nat;
  rand_src : nat -> string;    (* the successive Math.random().toString(36) *)
  rand_idx : nat;
  Bun_serve : option (Config -> Exn + Server);
  trace : list Event
}.

Record World : Type := { this : CCWebSocket; env : Env }.

(** Field updates. *)
Definition set_server (s : option Server) (b : CCWebSocket) : CCWebSocket :=
  {| server := s; clients := clients b; config := config b;
     startTime := startTime b; handlers := handlers b |}.
Definition set_clients (c : list (string * href)) (b : CCWebSocket) : CCWebSocket :=
  {| server := server b; clients := c; config := config b;
     startTime := startTime b; handlers := handlers b |}.
Definition set_startTime (t : Z) (b : CCWebSocket) : CCWebSocket :=
  {| server := server b; clients := clients b; config := config b;
     startTime := t; handlers := handlers b |}.
Definition set_handlers (h : MessageHandlers) (b : CCWebSocket) : CCWebSocket :=
  {| server := server b; clients := clients b; config := config b;
     startTime := startTime b; handlers := h |}.

Definition set_heap (hp : href -> WS) (e : Env) : Env :=
  {| heap := hp; now_src := now_src e; now_idx := now_idx e;
     rand_src := rand_src e; rand_idx := rand_idx e;
     Bun_serve := Bun_serve e; trace := trace e |}.
Definition set_now_idx (n : nat) (e : Env) : Env :=
  {| heap := heap e; now_src := now_src e; now_idx := n;
     rand_src := rand_src e; rand_idx := rand_idx e;
     Bun_serve := Bun_serve e; trace := trace e |}.
Definition set_rand_idx (n : nat) (e : Env) : Env :=
  {| heap := heap e; now_src := now_src e; now_idx := now_idx e;
     rand_src := rand_src e; rand_idx := n;
     Bun_serve := Bun_serve e; trace := trace e |}.
Definition set_trace (t : list Event) (e : Env) : Env :=
  {| heap := heap e; now_src := now_src e; now_idx := now_idx e;
     rand_src := rand_src e; rand_idx := rand_idx e;
     Bun_serve := Bun_serve e; trace := t |}.

Definition with_this (f : CCWebSocket -> CCWebSocket) (w : World) : World :=
  {| this := f (this w); env := env w |}.
Definition with_env (f : Env -> Env) (w : World) : World :=
  {| this := this w; env := f (env w) |}.

(* ===================================================================== *)
(** ** The monad of a method body: state and exceptions *)
(* ===================================================================== *)

Definition M (A : Type) : Type := World -> Result A * World.

Definition ret {A} (a : A) : M A := fun w => (Ok a, w).
Definition throw {A} (e : Thrown) : M A := fun w => (Throw e, w).
Definition bind {A B} (m : M A) (k : A -> M B) : M B :=
  fun w => match m w with
           | (Ok a, w') => k a w'
           | (Throw e, w') => (Throw e, w')
           end.
(** [try { body } catch (e) { handler e }] *)
Definition try_catch {A} (body : M A) (handler : Thrown -> M A) : M A :=
  fun w => match body w with
           | (Ok a, w') => (Ok a, w')
           | (Throw e, w') => handler e w'
           end.

Declare Scope js_scope.
Delimit Scope js_scope with js.
Notation "x <-- m ;; k" := (bind m (fun x => k))
  (at level 100, m at next level, right associativity) : js_scope.
Notation "m ;;; k" := (bind m (fun _ => k))
  (at level 100, right associativity) : js_scope.
Open Scope js_scope.

Definition emit (e : Event) : M unit :=
  fun w => (Ok tt, with_env (fun en => set_trace (trace en ++ [e]) en) w).

Definition console (lvl : Level) (args : list string) : M unit :=
  emit (EConsole lvl args).

Definition Date_now : M Z :=
  fun w => (Ok (now_src (env w) (now_idx (env w))),
            with_env (fun en => set_now_idx (S (now_idx en)) en) w).

(** [Math.random().toString(36)] *)
Definition Math_random_toString36 : M string :=
  fun w => (Ok (rand_src (env w) (rand_idx (env w))),
            with_env (fun en => set_rand_idx (S (rand_idx en)) en) w).

Definition get_this : M CCWebSocket := fun w => (Ok (this w), w).
Definition modify_this (f : CCWebSocket -> CCWebSocket) : M unit :=
  fun w => (Ok tt, with_this f w).

Definition deref (ws : href) : M WS := fun w => (Ok (heap (env w) ws), w).

(** [ws.data = d] *)
Definition ws_set_data (ws : href) (d : WsData) : M unit :=
  fun w => (Ok tt,
            with_env (fun en =>
              set_heap (fun r => if Nat.eqb r ws
                                 then {| readyState := readyState (heap en r);
                                         data := Some d;
                                         sendError := sendError (heap en r) |}
                                 else heap en r) en) w).

(** [ws.send(frame)] *)
Definition ws_send (ws : href) (frame : string) : M unit :=
  o <-- deref ws ;;
  match sendError o with
  | None => emit (EWsSend ws frame true)
  | Some e => emit (EWsSend ws frame false) ;;; throw e
  end.

(** [ws.close(code, reason)] *)
Definition ws_close (ws : href) (code : Z) (reason : string) : M unit :=
  emit (EWsClose ws code reason).

(** [slot?.(a)] *)
Definition call {A} (slot : Callback A) (ev : A -> Event) (a : A) : M unit :=
  match slot with
  | None => ret tt
  | Some f =>
      emit (ev a) ;;;
      match f a with
      | None => ret tt
      | Some e => throw e
      end
  end.

Definition lift {A} (r : Exn + A) : M A :=
  match r with
  | inl e => throw e
  | inr a => ret a
  end.

(* ===================================================================== *)
(** ** The Map of clients *)
(* ===================================================================== *)

Definition Map_get {V} (k : string) (m : list (string * V)) : option V :=
  snd <$> find (fun p => String.eqb (fst p) k) m.

Definition Map_has {V} (k : string) (m : list (string * V)) : bool :=
  existsb (fun p => String.eqb (fst p) k) m.

(** [set] replaces the value of a present key where it stands and appends
    an absent one. *)
Definition Map_set {V} (k : string) (v : V) (m : list (string * V)) : list (string * V) :=
  if Map_has k m
  then map (fun p => if String.eqb (fst p) k then (k, v) else p) m
  else m ++ [(k, v)].

Definition Map_delete {V} (k : string) (m : list (string * V)) : list (string * V) :=
  List.filter (fun p => negb (String.eqb (fst p) k)) m.

Definition Map_keys {V} (m : list (string * V)) : list string := map fst m.

(** [for (const [k, v] of entries) body], the body updating the local
    variables [s] of the method. *)
Fixpoint for_of_acc {K V S} (entries : list (K * V)) (body : K -> V -> S -> M S)
    (s : S) : M S :=
  match entries with
  | [] => ret s
  | (k, v) :: rest => s' <-- body k v s ;; for_of_acc rest body s'
  end.

(* ===================================================================== *)
(** ** class CCWebSocket *)
(* ===================================================================== *)

Definition or_port (o : option Z) (d : Z) : Z :=
  match o with
  | Some p => if Z.eqb p 0 then d else p
  | None => d
  end.

(** [constructor(config = {}, handlers = {})] *)
Definition new_CCWebSocket (c : WebSocketConfig) (h : MessageHandlers) : CCWebSocket :=
  {| server := None;
     clients := [];
     config := {| port := or_port (cfg_port c) 3001;
                  host := js_or (cfg_host c) "localhost";
                  path := js_or (cfg_path c) "/ws" |};
     startTime := 0;
     handlers := h |}.

(** A key of the object given to [setHandlers]: not an own key of it, or
    one, with its value ([undefined] or a function).  Reading a slot of
    [this.handlers] does not tell the two apart; the spread does. *)
Inductive Key (A : Type) : Type :=
| Absent
| Present (value : Callback A).
Arguments Absent {A}.
Arguments Present {A} value.

(** The argument of [setHandlers], key by key. *)
Record HandlerKeys : Type := {
  key_onMessage : Key ClientMessage;
  key_onClientConnect : Key string;
  key_onClientDisconnect : Key string;
  key_onCustomMessage : Key (option JSON * option JSON * string)
}.

(** [{ ...a, ...b }] read at one key: an own key of [b] wins with its
    value, [undefined] included. *)
Definition merge_slot {A} (a : Callback A) (b : Key A) : Callback A :=
  match b with
  | Present v => v
  | Absent => a
  end.

(** [setHandlers(handlers)] *)
Definition setHandlers (h : HandlerKeys) : M unit :=
  modify_this (fun b =>
    set_handlers
      {| onMessage := merge_slot (onMessage (handlers b)) (key_onMessage h);
         onClientConnect :=
           merge_slot (onClientConnect (handlers b)) (key_onClientConnect h);
         onClientDisconnect :=
           merge_slot (onClientDisconnect (handlers b)) (key_onClientDisconnect h);
         onCustomMessage :=
           merge_slot (onCustomMessage (handlers b)) (key_onCustomMessage h) |}
      b).

(** The default of the [type] parameter of [send] and [sendToClient]. *)
Definition default_type : string := "message".

Section Methods.
Context `{Platform}.

(** [x.message] on the value a [catch (x)] block caught. *)
Definition message_of (x : string) (error : Thrown) : M string :=
  match error with
  | Raised e => ret (message e)
  | ThrownNullish n => throw (no_message n x)
  | ThrownOther => ret "undefined"
  end.

(** The envelopes, as the object literals of the source build them. *)
Definition broadcast_envelope (type : string) (d : JSON) (timestamp : Z) : JSON :=
  JObj [("type", JStr type); ("data", d); ("timestamp", JNum timestamp)].

Definition unicast_envelope (type : string) (d : JSON) (timestamp : Z) (id : string) : JSON :=
  JObj [("type", JStr type); ("data", d); ("timestamp", JNum timestamp);
        ("clientId", JStr id)].

Definition connected_envelope (id : string) (t1 t2 : Z) : JSON :=
  JObj [("type", JStr "connected");
        ("data", JObj [("clientId", JStr id);
                       ("message", JStr "Connected to CC WebSocket server");
                       ("timestamp", JNum t1)]);
        ("timestamp", JNum t2)].

Definition pong_envelope (t1 t2 : Z) : JSON :=
  JObj [("type", JStr "pong");
        ("data", JObj [("timestamp", JNum t1)]);
        ("timestamp", JNum t2)].

Definition error_envelope (t1 t2 : Z) : JSON :=
  JObj [("type", JStr "error");
        ("data", JObj [("message", JStr "Invalid message format");
                       ("timestamp", JNum t1)]);
        ("timestamp", JNum t2)].

(** [private generateClientId()] *)
Definition generateClientId : M string :=
  t <-- Date_now ;;
  r <-- Math_random_toString36 ;;
  ret ("client_" +:+ pretty t +:+ "_" +:+ substring 2 9 r).

(** [async start()] *)
Definition start : M unit :=
  b <-- get_this ;;
  match server b with
  | Some _ => throw (Error "WebSocket server is already running")
  | None =>
      try_catch
        (fun w =>
           match Bun_serve (env w) with
           | Some serve =>
               (s <-- lift (serve (config b)) ;;
                modify_this (set_server (Some s)) ;;;
                t <-- Date_now ;;
                modify_this (set_startTime t) ;;;
                console LLog ["✅ WebSocket server started on ws://" +:+ host (config b)
                              +:+ ":" +:+ pretty (port (config b)) +:+ path (config b)]) w
           | None =>
               throw (Error "Bun.serve is not available. Please run this code in a Bun environment.") w
           end)
        (fun error =>
           m <-- message_of "error" error ;;
           console LError ["Failed to start WebSocket server:"; m] ;;;
           throw error)
  end.

(** The body of the loop of [stop], on one entry of the Map. *)
Definition close_one (clientId : string) (ws : href) (_ : unit) : M unit :=
  ws_close ws 1000 "Server shutting down".

(** [async stop()] *)
Definition stop : M unit :=
  b <-- get_this ;;
  match server b with
  | None => ret tt
  | Some _ =>
      for_of_acc (clients b) close_one tt ;;;
      modify_this (set_clients []) ;;;
      emit EServerStop ;;;
      modify_this (set_server None) ;;;
      console LLog ["✅ WebSocket server stopped"]
  end.

(** The body of the loop of [send], on one entry of the Map. *)
Definition send_one (messageString : string) (clientId : string) (ws : href)
    (sentCount : nat) : M nat :=
  o <-- deref ws ;;
  if Z.eqb (readyState o) 1
  then try_catch
         (ws_send ws messageString ;;; ret (S sentCount))
         (fun error =>
            m <-- message_of "error" error ;;
            console LWarn ["Failed to send message to client " +:+ clientId +:+ ":"; m] ;;;
            modify_this (fun b' => set_clients (Map_delete clientId (clients b')) b') ;;;
            ret sentCount)
  else ret sentCount.

(** [send(data, type = 'message')] *)
Definition send (d : JSON) (type : string) : M unit :=
  b <-- get_this ;;
  match server b with
  | None => console LWarn ["WebSocket server is not running"]
  | Some _ =>
      t <-- Date_now ;;
      let messageString := JSON_stringify (broadcast_envelope type d t) in
      sentCount <-- for_of_acc (clients b) (send_one messageString) 0 ;;
      if Nat.ltb 0 sentCount
      then console LLog ["📤 Sent " +:+ type +:+ " to " +:+ pretty sentCount +:+ " client(s)"]
      else ret tt
  end.

(** [sendToClient(clientId, data, type = 'message')] *)
Definition sendToClient (id : string) (d : JSON) (type : string) : M unit :=
  b <-- get_this ;;
  match server b with
  | None => console LWarn ["WebSocket server is not running"]
  | Some _ =>
      match Map_get id (clients b) with
      | None => console LWarn ["Client " +:+ id +:+ " not found"]
      | Some ws =>
          t <-- Date_now ;;
          let msg := unicast_envelope type d t id in
          try_catch
            (o <-- deref ws ;;
             if Z.eqb (readyState o) 1
             then ws_send ws (JSON_stringify msg) ;;;
                  console LLog ["📤 Sent " +:+ type +:+ " to client " +:+ id]
             else ret tt)
            (fun error =>
               m <-- message_of "error" error ;;
               console LWarn ["Failed to send message to client " +:+ id +:+ ":"; m] ;;;
               modify_this (fun b' => set_clients (Map_delete id (clients b')) b'))
      end
  end.

(** [getStatus()] *)
Definition getStatus (b : CCWebSocket) : WebSocketStatus :=
  {| isRunning := match server b with Some _ => true | None => false end;
     connectedClients := length (clients b);
     st_port := port (config b);
     st_host := host (config b) |}.

(** [getConnectedClients()] *)
Definition getConnectedClients (b : CCWebSocket) : list string :=
  Map_keys (clients b).

(** [ws.data?.clientId] *)
Definition data_clientId (o : WS) : option string := clientId <$> data o.

(** [private handleOpen(ws)] *)
Definition handleOpen (ws : href) : M unit :=
  id <-- generateClientId ;;
  t <-- Date_now ;;
  ws_set_data ws {| clientId := id; connectedAt := t |} ;;;
  modify_this (fun b => set_clients (Map_set id ws (clients b)) b) ;;;
  b <-- get_this ;;
  console LLog ["🔗 Client connected: " +:+ id +:+ " (total: "
                +:+ pretty (length (clients b)) +:+ ")"] ;;;
  call (onClientConnect (handlers b)) EOnClientConnect id ;;;
  try_catch
    (t1 <-- Date_now ;;
     t2 <-- Date_now ;;
     ws_send ws (JSON_stringify (connected_envelope id t1 t2)))
    (fun error =>
       m <-- message_of "error" error ;;
       console LWarn ["Failed to send welcome message to " +:+ id +:+ ":"; m]).

(** [private handleClose(ws)] *)
Definition handleClose (ws : href) : M unit :=
  o <-- deref ws ;;
  match data_clientId o with
  | Some id =>
      if truthy (Some id)
      then modify_this (fun b => set_clients (Map_delete id (clients b)) b) ;;;
           b <-- get_this ;;
           console LLog ["🔌 Client disconnected: " +:+ id +:+ " (total: "
                         +:+ pretty (length (clients b)) +:+ ")"] ;;;
           call (onClientDisconnect (handlers b)) EOnClientDisconnect id
      else ret tt
  | None => ret tt
  end.

(** [private handleMessage(ws, message)] *)
Definition handleMessage (ws : href) (msg : string) : M unit :=
  o <-- deref ws ;;
  let id := js_or (data_clientId o) "unknown" in
  try_catch
    (d <-- lift (JSON_parse msg) ;;
     ty <-- lift (get_prop d "type") ;;
     dd <-- lift (get_prop d "data") ;;
     t <-- Date_now ;;
     let clientMessage :=
       {| cm_type := ty; cm_data := dd; cm_timestamp := t; cm_clientId := id |} in
     if is_ping ty
     then t1 <-- Date_now ;;
          t2 <-- Date_now ;;
          ws_send ws (JSON_stringify (pong_envelope t1 t2))
     else b <-- get_this ;;
          call (onMessage (handlers b)) EOnMessage clientMessage ;;;
          b' <-- get_this ;;
          call (onCustomMessage (handlers b')) EOnCustomMessage (ty, dd, id))
    (fun error =>
       m <-- message_of "error" error ;;
       console LWarn ["Failed to parse message from client " +:+ id +:+ ":"; m] ;;;
       try_catch
         (t1 <-- Date_now ;;
          t2 <-- Date_now ;;
          ws_send ws (JSON_stringify (error_envelope t1 t2)))
         (fun sendError =>
            m' <-- message_of "sendError" sendError ;;
            console LWarn ["Failed to send error response to " +:+ id +:+ ":"; m'])).

(** [private handleError(ws, error)] *)
Definition handleError (ws : href) (error : Exn) : M unit :=
  o <-- deref ws ;;
  let id := js_or (data_clientId o) "unknown" in
  console LError ["WebSocket error for client " +:+ id +:+ ":"; message error] ;;;
  if truthy (Some id)
  then modify_this (fun b => set_clients (Map_delete id (clients b)) b) ;;;
       b <-- get_this ;;
       call (onClientDisconnect (handlers b)) EOnClientDisconnect id
  else ret tt.

End Methods.

(* ===================================================================== *)
(** ** A platform to run the methods on

    The properties below hold for every [Platform].  To evaluate the
    methods on the sample worlds, this instance prints the values of
    [JSON] in the compact form of [JSON.stringify] and reads the texts the
    samples use.  It stands in for the engine only there: its reader
    refuses a number with a fraction or an exponent and a [\u] escape
    above [00ff], and keeps the repeated members of an object (the last
    one is the one read). *)
(* ===================================================================== *)

Module RefJSON.

Local Open Scope char_scope.

Definition dquote : ascii := ascii_of_nat 34.
Definition backslash : ascii := ascii_of_nat 92.

Definition is_ws (c : ascii) : bool :=
  match c with
  | " " | "009" | "010" | "013" => true
  | _ => false
  end.

Definition is_num_char (c : ascii) : bool :=
  match c with
  | "0" | "1" | "2" | "3" | "4" | "5" | "6" | "7" | "8" | "9" | "-" => true
  | _ => false
  end.

Definition is_control (c : ascii) : bool := N.ltb (N_of_ascii c) 32.

(** The digit of a value below sixteen, in lower case, and back. *)
Definition hex_digit (n : N) : ascii :=
  if N.ltb n 10 then ascii_of_N (48 + n) else ascii_of_N (87 + n).

Definition hex_value (c : ascii) : option N :=
  let n := N_of_ascii c in
  if N.leb 48 n && N.leb n 57 then Some (n - 48)%N
  else if N.leb 97 n && N.leb n 102 then Some (n - 87)%N
  else if N.leb 65 n && N.leb n 70 then Some (n - 55)%N
  else None.

Definition hex4 (a b c d : ascii) : option N :=
  match hex_value a, hex_value b, hex_value c, hex_value d with
  | Some x, Some y, Some z, Some t => Some (((x * 16 + y) * 16 + z) * 16 + t)%N
  | _, _, _, _ => None
  end.

(** One character of a string literal, as [JSON.stringify] quotes it. *)
Definition escape (c : ascii) : list ascii :=
  if Ascii.eqb c dquote then [backslash; dquote]
  else if Ascii.eqb c backslash then [backslash; backslash]
  else match c with
       | "008" => [backslash; "b"]
       | "009" => [backslash; "t"]
       | "010" => [backslash; "n"]
       | "012" => [backslash; "f"]
       | "013" => [backslash; "r"]
       | _ =>
           if is_control c
           then [backslash; "u"; "0"; "0";
                 hex_digit (N_of_ascii c / 16); hex_digit (N_of_ascii c mod 16)]
           else [c]
       end.

Definition simple_escape (e : ascii) : option ascii :=
  if Ascii.eqb e dquote then Some dquote
  else if Ascii.eqb e backslash then Some backslash
  else match e with
       | "/" => Some "/"
       | "b" => Some "008"
       | "t" => Some "009"
       | "n" => Some "010"
       | "f" => Some "012"
       | "r" => Some "013"
       | _ => None
       end.

Fixpoint print_chars (s : string) : list ascii :=
  match s with
  | EmptyString => []
  | String c r => escape c ++ print_chars r
  end.

Definition print_string (s : string) : list ascii :=
  dquote :: print_chars s ++ [dquote].

Definition print_Z (z : Z) : list ascii :=
  list_ascii_of_string (DecimalString.NilZero.string_of_int (Z.to_int z)).

Fixpoint print (v : JSON) : list ascii :=
  match v with
  | JNull => ["n"; "u"; "l"; "l"]
  | JBool true => ["t"; "r"; "u"; "e"]
  | JBool false => ["f"; "a"; "l"; "s"; "e"]
  | JNum z => print_Z z
  | JStr s => print_string s
  | JArr items =>
      match items with
      | [] => ["["; "]"]
      | x :: rest =>
          "[" :: print x
              ++ (fix tail (l : list JSON) : list ascii :=
                    match l with
                    | [] => []
                    | y :: l' => "," :: print y ++ tail l'
                    end) rest
              ++ ["]"]
      end
  | JObj fields =>
      match fields with
      | [] => ["{"; "}"]
      | (k, x) :: rest =>
          "{" :: print_string k ++ ":" :: print x
              ++ (fix tail (l : list (string * JSON)) : list ascii :=
                    match l with
                    | [] => []
                    | (k', y) :: l' => "," :: print_string k' ++ ":" :: print y ++ tail l'
                    end) rest
              ++ ["}"]
      end
  end.

Definition Parser (A : Type) : Type := list ascii -> option (A * list ascii).

Fixpoint skip_ws (s : list ascii) : list ascii :=
  match s with
  | c :: r => if is_ws c then skip_ws r else s
  | [] => []
  end.

Definition cons_char (c : ascii) (o : option (string * list ascii)) :
    option (string * list ascii) :=
  match o with
  | Some (s, rest) => Some (String c s, rest)
  | None => None
  end.

(** The characters of a string literal up to its closing quote. *)
Fixpoint parse_chars (s : list ascii) : option (string * list ascii) :=
  match s with
  | [] => None
  | c :: r =>
      if Ascii.eqb c dquote then Some (EmptyString, r)
      else if Ascii.eqb c backslash then
        match r with
        | "u" :: h1 :: h2 :: h3 :: h4 :: r' =>
            match hex4 h1 h2 h3 h4 with
            | Some cu =>
                if N.ltb cu 256 then cons_char (ascii_of_N cu) (parse_chars r') else None
            | None => None
            end
        | e :: r' =>
            match simple_escape e with
            | Some ch => cons_char ch (parse_chars r')
            | None => None
            end
        | [] => None
        end
      else if is_control c then None
      else cons_char c (parse_chars r)
  end.

Definition parse_string : Parser string :=
  fun s => match skip_ws s with
           | c :: r => if Ascii.eqb c dquote then parse_chars r else None
           | [] => None
           end.

Fixpoint span_num (s : list ascii) : list ascii * list ascii :=
  match s with
  | c :: r => if is_num_char c
              then (let (run, rest) := span_num r in (c :: run, rest))
              else ([], s)
  | [] => ([], [])
  end.

(** An integer in the form [JSON.stringify] prints: no leading zero. *)
Definition parse_number : Parser JSON :=
  fun s =>
    let (run, rest) := span_num s in
    let text := string_of_list_ascii run in
    match DecimalString.NilZero.int_of_string text with
    | Some i =>
        if String.eqb (DecimalString.NilZero.string_of_int (Z.to_int (Z.of_int i))) text
        then Some (JNum (Z.of_int i), rest)
        else None
    | None => None
    end.

(** [item (sep item)* close], [n] bounding the number of items. *)
Fixpoint parse_tail {A} (item : Parser A) (close : ascii) (n : nat) (s : list ascii) :
    option (list A * list ascii) :=
  match n with
  | O => None
  | S n' =>
      match skip_ws s with
      | c :: r =>
          if Ascii.eqb c close then Some ([], r)
          else if Ascii.eqb c "," then
            match item r with
            | Some (x, r1) =>
                match parse_tail item close n' r1 with
                | Some (xs, r2) => Some (x :: xs, r2)
                | None => None
                end
            | None => None
            end
          else None
      | [] => None
      end
  end.

Definition parse_list {A} (item : Parser A) (close : ascii) (n : nat) (s : list ascii) :
    option (list A * list ascii) :=
  match skip_ws s with
  | c :: r =>
      if Ascii.eqb c close then Some ([], r)
      else match item s with
           | Some (x, r1) =>
               match parse_tail item close n r1 with
               | Some (xs, r2) => Some (x :: xs, r2)
               | None => None
               end
           | None => None
           end
  | [] => None
  end.

Definition parse_member (value : Parser JSON) : Parser (string * JSON) :=
  fun s =>
    match parse_string s with
    | Some (k, r) =>
        match skip_ws r with
        | c :: r1 =>
            if Ascii.eqb c ":" then
              match value r1 with
              | Some (v, r2) => Some ((k, v), r2)
              | None => None
              end
            else None
        | [] => None
        end
    | None => None
    end.

Fixpoint parse_value (fuel : nat) (s : list ascii) : option (JSON * list ascii) :=
  match fuel with
  | O => None
  | S f =>
      match skip_ws s with
      | "n" :: "u" :: "l" :: "l" :: r => Some (JNull, r)
      | "t" :: "r" :: "u" :: "e" :: r => Some (JBool true, r)
      | "f" :: "a" :: "l" :: "s" :: "e" :: r => Some (JBool false, r)
      | "[" :: r =>
          match parse_list (parse_value f) "]" f r with
          | Some (items, r') => Some (JArr items, r')
          | None => None
          end
      | "{" :: r =>
          match parse_list (parse_member (parse_value f)) "}" f r with
          | Some (fields, r') => Some (JObj fields, r')
          | None => None
          end
      | c :: r =>
          if Ascii.eqb c dquote then
            match parse_chars r with
            | Some (str, r') => Some (JStr str, r')
            | None => None
            end
          else if is_num_char c then parse_number (c :: r)
          else None
      | [] => None
      end
  end.

Definition stringify (v : JSON) : string := string_of_list_ascii (print v).

Definition parse (text : string) : Exn + JSON :=
  match parse_value (S (String.length text)) (list_ascii_of_string text) with
  | Some (v, rest) =>
      match skip_ws rest with
      | [] => inr v
      | _ :: _ => inl (Error "JSON Parse error: Unable to parse JSON string")
      end
  | None => inl (Error "JSON Parse error: Unexpected identifier")
  end.

#[export] Instance platform : Platform :=
  {| JSON_stringify := stringify;
     JSON_parse := parse;
     null_property :=
       fun k => Error ("null is not an object (evaluating 'data." +:+ k +:+ "')")%string;
     no_message :=
       fun n x => Error ((match n with JSNull => "null" | JSUndefined => "undefined" end)
                         +:+ " is not an object (evaluating '" +:+ x +:+ ".message')")%string |}.

End RefJSON.

(* ===================================================================== *)
(** ** Observations on a call *)
(* ===================================================================== *)

Definition result {A} (m : M A) (w : World) : Result A := fst (m w).
Definition after {A} (m : M A) (w : World) : World := snd (m w).

(** What a call appends to the trace. *)
Definition events_of {A} (m : M A) (w : World) : list Event :=
  drop (length (trace (env w))) (trace (env (after m w))).

(** The [ws.send] calls of a trace, in order: handle and frame. *)
Fixpoint sends_of (tr : list Event) : list (href * string) :=
  match tr with
  | [] => []
  | EWsSend ws frame _ :: rest => (ws, frame) :: sends_of rest
  | _ :: rest => sends_of rest
  end.

(** Those of them that returned: the frames written. *)
Fixpoint delivered (tr : list Event) : list (href * string) :=
  match tr with
  | [] => []
  | EWsSend ws frame true :: rest => (ws, frame) :: delivered rest
  | _ :: rest => delivered rest
  end.

Fixpoint closes_of (tr : list Event) : list href :=
  match tr with
  | [] => []
  | EWsClose ws _ _ :: rest => ws :: closes_of rest
  | _ :: rest => closes_of rest
  end.

Definition is_handler_call (e : Event) : bool :=
  match e with
  | EOnMessage _ | EOnClientConnect _ | EOnClientDisconnect _ | EOnCustomMessage _ => true
  | _ => false
  end.

Definition handler_calls (tr : list Event) : list Event :=
  List.filter is_handler_call tr.

Definition warnings (tr : list Event) : list (list string) :=
  flat_map (fun e => match e with EConsole LWarn args => [args] | _ => [] end) tr.

(** A handle is open ([readyState === 1]); a write on it fails. *)
Definition is_open (hp : href -> WS) (ws : href) : bool :=
  Z.eqb (readyState (hp ws)) 1.

Definition write_fails (hp : href -> WS) (ws : href) : bool :=
  match sendError (hp ws) with
  | Some _ => true
  | None => false
  end.

(** The ids under which a broadcast meets an open handle whose write
    fails. *)
Definition failed_ids (hp : href -> WS) (m : list (string * href)) : list string :=
  map fst (List.filter (fun p => is_open hp (snd p) && write_fails hp (snd p)) m).

Definition in_ids (ids : list string) (k : string) : bool :=
  existsb (String.eqb k) ids.

Section Runs.
Context `{Platform}.

(** The transport delivers a run of opened events; an exception of a
    callback ends that event, not the run. *)
Definition opens (hs : list href) (w : World) : World :=
  fold_left (fun w' h => after (handleOpen h) w') hs w.

(** What [generateClientId] draws when called in [w]: the reading of the
    clock and the nine characters kept of the random text. *)
Definition next_draw (w : World) : Z * string :=
  (now_src (env w) (now_idx (env w)),
   substring 2 9 (rand_src (env w) (rand_idx (env w)))).

Definition id_of_draw (d : Z * string) : string :=
  "client_" +:+ pretty (fst d) +:+ "_" +:+ snd d.

(** The draws of the successive opens of a run. *)
Fixpoint open_draws (hs : list href) (w : World) : list (Z * string) :=
  match hs with
  | [] => []
  | h :: rest => next_draw w :: open_draws rest (after (handleOpen h) w)
  end.

(** The outbound calls of the owning application. *)
Inductive OutCall : Type :=
| CSend (d : JSON) (type : string)
| CSendToClient (id : string) (d : JSON) (type : string).

Definition run_call (c : OutCall) : M unit :=
  match c with
  | CSend d type => send d type
  | CSendToClient id d type => sendToClient id d type
  end.

Definition calls (cs : list OutCall) (w : World) : World :=
  fold_left (fun w' c => after (run_call c) w') cs w.

End Runs.

(** The characters of a decimal numeral: no underscore among them. *)
Fixpoint no_underscore (s : string) : bool :=
  match s with
  | EmptyString => true
  | String c r => negb (Ascii.eqb c "_") && no_underscore r
  end.

(* ===================================================================== *)
(** ** A world to run the methods on *)
(* ===================================================================== *)

Module Sample.

Definition q : string := String RefJSON.dquote "".

(** Handle 0: open and registered.  Handle 1: open, registered, its writes
    fail.  Handle 2: registered, closed.  The others: open, not yet known
    to the bridge; the writes of handle 4 fail. *)
Definition handles (ws : href) : WS :=
  match ws with
  | 0 => {| readyState := 1;
            data := Some {| clientId := "client_1_a"; connectedAt := 1 |};
            sendError := None |}
  | 1 => {| readyState := 1;
            data := Some {| clientId := "client_1_b"; connectedAt := 1 |};
            sendError := Some (Error "write EPIPE") |}
  | 2 => {| readyState := 3;
            data := Some {| clientId := "client_1_c"; connectedAt := 1 |};
            sendError := None |}
  | 4 => {| readyState := 1; data := None; sendError := Some (Error "write EPIPE") |}
  | _ => {| readyState := 1; data := None; sendError := None |}
  end.

Definition environment : Env :=
  {| heap := handles;
     now_src := fun n => (1700000000000 + Z.of_nat n)%Z;
     now_idx := 0;
     rand_src := fun n => "0." +:+ pretty n +:+ "fzyo82mvyr";
     rand_idx := 0;
     Bun_serve := Some (fun c => inr {| hostname := host c; srv_port := port c |});
     trace := [] |}.

(** Every callback set; [onMessage] throws on a message of type "boom". *)
Definition callbacks : MessageHandlers :=
  {| onMessage := Some (fun m => match cm_type m with
                                 | Some (JStr "boom") => Some (Raised (Error "handler failed"))
                                 | _ => None
                                 end);
     onClientConnect := Some (fun _ => None);
     onClientDisconnect := Some (fun _ => None);
     onCustomMessage := Some (fun _ => None) |}.

Definition bridge : CCWebSocket :=
  {| server := Some {| hostname := "localhost"; srv_port := 3001 |};
     clients := [("client_1_a", 0); ("client_1_b", 1); ("client_1_c", 2)];
     config := {| port := 3001; host := "localhost"; path := "/ws" |};
     startTime := 1;
     handlers := callbacks |}.

Definition world : World := {| this := bridge; env := environment |}.

(** A bridge just built, before [start]. *)
Definition fresh : World :=
  {| this := new_CCWebSocket {| cfg_port := None; cfg_host := None; cfg_path := None |}
                             callbacks;
     env := environment |}.

(** A clock and a generator that repeat themselves. *)
Definition stuck : World :=
  {| this := this fresh;
     env := {| heap := handles;
               now_src := fun _ => 1700000000000%Z;
               now_idx := 0;
               rand_src := fun _ => "0.4fzyo82mvyr";
               rand_idx := 0;
               Bun_serve := None;
               trace := [] |} |}.

Definition ping_frame : string := "{" +:+ q +:+ "type" +:+ q +:+ ":" +:+ q +:+ "ping" +:+ q +:+ "}".
Definition boom_frame : string := "{" +:+ q +:+ "type" +:+ q +:+ ":" +:+ q +:+ "boom" +:+ q +:+ "}".

End Sample.

(* ===================================================================== *)
(** ** The rest of the class and the runs of a bridge *)
(* ===================================================================== *)

(** [isClientConnected(clientId)]: the value of [ws && ws.readyState === 1],
    [undefined] ([None]) for an id that is not registered. *)
Definition isClientConnected (id : string) (w : World) : option bool :=
  match Map_get id (clients (this w)) with
  | None => None
  | Some ws => Some (Z.eqb (readyState (heap (env w) ws)) 1)
  end.

(** What the [fetch] callback of [start] answers. *)
Inductive FetchResult : Type :=
| Upgraded                          (* [return undefined] after [server.upgrade] *)
| NotFound (upgrade_called : bool). (* [new Response('WebSocket server', { status: 404 })] *)

(** The [fetch] callback that [start] gives to [Bun.serve]: [pathname] is
    [new URL(req.url).pathname], [upgrade] what [server.upgrade(req)]
    returns when it is called. *)
Definition fetch (b : CCWebSocket) (pathname : string) (upgrade : bool) : FetchResult :=
  if String.eqb pathname (path (config b))
  then if upgrade then Upgraded else NotFound true
  else NotFound false.

(** The [console.log] lines of a trace. *)
Definition logs (tr : list Event) : list (list string) :=
  flat_map (fun e => match e with EConsole LLog args => [args] | _ => [] end) tr.

Definition errors (tr : list Event) : list (list string) :=
  flat_map (fun e => match e with EConsole LError args => [args] | _ => [] end) tr.

(** The calls of [server.stop()] in a trace. *)
Definition server_stops (tr : list Event) : nat :=
  length (List.filter (fun e => match e with EServerStop => true | _ => false end) tr).

(** What a callback slot does on an argument: the event recorded when the
    slot is set, and what the callback throws, if anything. *)
Definition called {A} (slot : Callback A) (ev : A -> Event) (a : A) : list Event :=
  match slot with
  | Some _ => [ev a]
  | None => []
  end.

Definition outcome {A} (slot : Callback A) (a : A) : option Thrown :=
  match slot with
  | Some f => f a
  | None => None
  end.

(** What the first callback that throws, if any, threw. *)
Definition first_thrown (o1 o2 : option Thrown) : option Thrown :=
  match o1 with
  | Some t => Some t
  | None => o2
  end.

(** A parsed frame that is neither [null] nor an object: a number, a
    string, a boolean or an array. *)
Definition not_object (d : JSON) : bool :=
  match d with
  | JNull | JObj _ => false
  | _ => true
  end.

(** [s.startsWith(p)] *)
Fixpoint starts_with (p s : string) : bool :=
  match p, s with
  | EmptyString, _ => true
  | String a p', String b s' => Ascii.eqb a b && starts_with p' s'
  | String _ _, EmptyString => false
  end.

(** An id as [generateClientId] spells it. *)
Definition is_generated (id : string) : bool := starts_with "client_" id.

(** What the loop of [send] appends to the trace for one entry of the Map:
    nothing for a handle that is not open, the write for an open one, and
    the warning that names the client when the write throws. *)
Definition send_events (hp : href -> WS) (frame : string) (p : string * href) : list Event :=
  if Z.eqb (readyState (hp (snd p))) 1
  then match sendError (hp (snd p)) with
       | None => [EWsSend (snd p) frame true]
       | Some e =>
           [EWsSend (snd p) frame false;
            EConsole LWarn ["Failed to send message to client " +:+ fst p +:+ ":";
                            message e]]
       end
  else [].

Section Life.
Context `{Platform}.

(** What happens to a bridge: the calls of its owner, the events of the
    transport, and whatever the environment does in between (connections
    opening and closing, the clock). *)
Inductive Op : Type :=
| OStart
| OStop
| OSetHandlers (h : HandlerKeys)
| OSend (d : JSON) (type : string)
| OSendToClient (id : string) (d : JSON) (type : string)
| OOpen (ws : href)
| OClose (ws : href)
| OMessage (ws : href) (msg : string)
| OError (ws : href) (error : Exn)
| OEnv (f : Env -> Env).

Definition run_op (o : Op) : M unit :=
  match o with
  | OStart => start
  | OStop => stop
  | OSetHandlers h => setHandlers h
  | OSend d type => send d type
  | OSendToClient id d type => sendToClient id d type
  | OOpen ws => handleOpen ws
  | OClose ws => handleClose ws
  | OMessage ws msg => handleMessage ws msg
  | OError ws error => handleError ws error
  | OEnv f => fun w => (Ok tt, with_env f w)
  end.

(** A run: an exception ends the call that threw, not the run. *)
Definition run_ops (os : list Op) (w : World) : World :=
  fold_left (fun w' o => after (run_op o) w') os w.

(** The bridge [new CCWebSocket(c, h)] in an environment. *)
Definition built (c : WebSocketConfig) (h : MessageHandlers) (e : Env) : World :=
  {| this := new_CCWebSocket c h; env := e |}.

End Life.


(** Further sample worlds: the sample bridge with other callbacks. *)
Module Scenes.

Definition chat_frame : string :=
  "{" +:+ Sample.q +:+ "type" +:+ Sample.q +:+ ":" +:+ Sample.q +:+ "chat" +:+ Sample.q
      +:+ "," +:+ Sample.q +:+ "data" +:+ Sample.q +:+ ":[1,2]}".

Definition the_server : Server := {| hostname := "localhost"; srv_port := 3001 |}.

(** [onCustomMessage] throws on every message; [onClientConnect] refuses
    every connection. *)
Definition strict_callbacks : MessageHandlers :=
  {| onMessage := Some (fun _ => None);
     onClientConnect := Some (fun _ => Some (Raised (Error "connection refused")));
     onClientDisconnect := Some (fun _ => None);
     onCustomMessage := Some (fun _ => Some (Raised (Error "custom failed"))) |}.

Definition strict : World :=
  {| this := set_handlers strict_callbacks Sample.bridge; env := Sample.environment |}.

(** [onMessage] throws [null]. *)
Definition careless_callbacks : MessageHandlers :=
  {| onMessage := Some (fun _ => Some (ThrownNullish JSNull));
     onClientConnect := None;
     onClientDisconnect := None;
     onCustomMessage := Some (fun _ => None) |}.

Definition careless : World :=
  {| this := set_handlers careless_callbacks Sample.bridge; env := Sample.environment |}.

Definition no_config : WebSocketConfig :=
  {| cfg_port := None; cfg_host := None; cfg_path := None |}.

End Scenes.
(* ===================================================================== *)
(** * Properties *)
(* ===================================================================== *)

(** ** Running a method body *)

Ltac unfold_monad :=
  cbv beta iota zeta delta
    [bind try_catch ret throw lift deref get_this modify_this console emit
     Date_now Math_random_toString36 ws_send ws_close ws_set_data with_env
     with_this call message_of after result].

Ltac run := unfold_monad; simpl.

Lemma events_of_app {A} (m : M A) (w : World) (evs : list Event) :
  trace (env (after m w)) = trace (env w) ++ evs -> events_of m w = evs.
Proof. unfold events_of. intros ->. apply drop_app_length. Qed.

Lemma sends_of_app (a b : list Event) : sends_of (a ++ b) = sends_of a ++ sends_of b.
Proof.
  induction a as [|e a IH]; simpl; [reflexivity|].
  destruct e; simpl; rewrite ?IH; reflexivity.
Qed.

Lemma delivered_app (a b : list Event) : delivered (a ++ b) = delivered a ++ delivered b.
Proof.
  induction a as [|e a IH]; simpl; [reflexivity|].
  destruct e as [| ? ? [] | | | | | |]; simpl; rewrite ?IH; reflexivity.
Qed.

(** ** The inbound protocol *)

Section Inbound.
Context `{Platform}.

(** C3. A frame that [JSON.parse] rejects reaches no callback; the bridge
    calls [ws.send] once, on the handle the frame came from, with the
    envelope [{type: "error", data: {message: "Invalid message format",
    timestamp}, timestamp}], the two timestamps read from the clock in
    that order; it closes nothing and leaves the registry as it was. *)
Theorem malformed_frame_error_reply (w : World) (ws : href) (msg : string) (e : Exn) :
  JSON_parse msg = inl e ->
  let evs := events_of (handleMessage ws msg) w in
  let t := now_src (env w) in
  let i := now_idx (env w) in
  let reply :=
    JObj [("type", JStr "error");
          ("data", JObj [("message", JStr "Invalid message format");
                         ("timestamp", JNum (t i))]);
          ("timestamp", JNum (t (S i)))] in
  result (handleMessage ws msg) w = Ok tt /\
  handler_calls evs = [] /\
  sends_of evs = [(ws, JSON_stringify reply)] /\
  (write_fails (heap (env w)) ws = false -> delivered evs = sends_of evs) /\
  closes_of evs = [] /\
  this (after (handleMessage ws msg) w) = this w.
Proof.
  intros Hparse evs t i reply.
  assert (Hshape : exists tl,
    trace (env (after (handleMessage ws msg) w)) = trace (env w) ++ tl /\
    result (handleMessage ws msg) w = Ok tt /\
    handler_calls tl = [] /\
    sends_of tl = [(ws, JSON_stringify reply)] /\
    (write_fails (heap (env w)) ws = false -> delivered tl = sends_of tl) /\
    closes_of tl = [] /\
    this (after (handleMessage ws msg) w) = this w).
  { subst t i reply. unfold handleMessage, write_fails. run. rewrite Hparse. run.
    destruct (sendError (heap (env w) ws)); simpl;
      eexists; rewrite <- ?app_assoc; (split; [reflexivity|]); simpl;
      repeat split; auto; discriminate. }
  destruct Hshape as (tl & Htr & Hres & Hh & Hs & Hd & Hc & Hthis).
  subst evs. rewrite (events_of_app _ _ _ Htr). auto 10.
Qed.

(** C4. A frame that parses to an object whose [type] is "ping" reaches no
    callback; the first [ws.send] is the envelope [{type: "pong", data:
    {timestamp}, timestamp}], on the handle the frame came from, its
    payload the reading of the clock taken for the reply; it is the only
    one when the write succeeds, and is followed by the "error" envelope
    on the same handle when the write fails. *)
Theorem ping_pong_reply (w : World) (ws : href) (msg : string)
    (fields : list (string * JSON)) :
  JSON_parse msg = inr (JObj fields) ->
  lookup_field "type" fields = Some (JStr "ping") ->
  let evs := events_of (handleMessage ws msg) w in
  let t := now_src (env w) in
  let i := now_idx (env w) in
  let pong :=
    (ws, JSON_stringify
           (JObj [("type", JStr "pong");
                  ("data", JObj [("timestamp", JNum (t (1 + i)))]);
                  ("timestamp", JNum (t (2 + i)))])) in
  let err :=
    (ws, JSON_stringify
           (JObj [("type", JStr "error");
                  ("data", JObj [("message", JStr "Invalid message format");
                                 ("timestamp", JNum (t (3 + i)))]);
                  ("timestamp", JNum (t (4 + i)))])) in
  result (handleMessage ws msg) w = Ok tt /\
  handler_calls evs = [] /\
  sends_of evs = (if write_fails (heap (env w)) ws then [pong; err] else [pong]) /\
  delivered evs = (if write_fails (heap (env w)) ws then [] else [pong]) /\
  this (after (handleMessage ws msg) w) = this w.
Proof.
  intros Hparse Hty evs t i pong err.
  assert (Hshape : exists tl,
    trace (env (after (handleMessage ws msg) w)) = trace (env w) ++ tl /\
    result (handleMessage ws msg) w = Ok tt /\
    handler_calls tl = [] /\
    sends_of tl = (if write_fails (heap (env w)) ws then [pong; err] else [pong]) /\
    delivered tl = (if write_fails (heap (env w)) ws then [] else [pong]) /\
    this (after (handleMessage ws msg) w) = this w).
  { subst t i pong err. unfold handleMessage, write_fails. run. rewrite Hparse. run.
    rewrite Hty. run.
    destruct (sendError (heap (env w) ws)) eqn:Hs; run; rewrite ?Hs; run;
      eexists; rewrite <- ?app_assoc; (split; [reflexivity|]); simpl; auto. }
  destruct Hshape as (tl & Htr & Hres & Hh & Hs & Hd & Hthis).
  subst evs. rewrite (events_of_app _ _ _ Htr). auto 10.
Qed.

(** C10, as the code has it.  A frame that parses, is not a ping, and on
    which [onMessage] throws a value other than [null] and [undefined]:
    [onMessage] is the only callback called ([onCustomMessage] is not),
    the bridge calls [ws.send] once, on the handle the frame came from,
    with the envelope [{type: "error", data: {message: "Invalid message
    format", timestamp}, timestamp}] of a parse failure, and
    [handleMessage] returns normally. *)
Theorem onMessage_throw_error_reply (w : World) (ws : href) (msg : string)
    (d : JSON) (ty dd : option JSON) (f : ClientMessage -> option Thrown)
    (thrown : Thrown) :
  JSON_parse msg = inr d ->
  get_prop d "type" = inr ty ->
  get_prop d "data" = inr dd ->
  is_ping ty = false ->
  onMessage (handlers (this w)) = Some f ->
  let t := now_src (env w) in
  let i := now_idx (env w) in
  let cm := {| cm_type := ty; cm_data := dd; cm_timestamp := t i;
               cm_clientId := js_or (data_clientId (heap (env w) ws)) "unknown" |} in
  f cm = Some thrown ->
  is_nullish thrown = false ->
  let reply :=
    JObj [("type", JStr "error");
          ("data", JObj [("message", JStr "Invalid message format");
                         ("timestamp", JNum (t (1 + i)))]);
          ("timestamp", JNum (t (2 + i)))] in
  let evs := events_of (handleMessage ws msg) w in
  result (handleMessage ws msg) w = Ok tt /\
  handler_calls evs = [EOnMessage cm] /\
  sends_of evs = [(ws, JSON_stringify reply)] /\
  this (after (handleMessage ws msg) w) = this w.
Proof.
  intros Hparse Hty Hdd Hping Hslot t i cm Hthrow Hnn reply evs.
  assert (Hshape : exists tl,
    trace (env (after (handleMessage ws msg) w)) = trace (env w) ++ tl /\
    result (handleMessage ws msg) w = Ok tt /\
    handler_calls tl = [EOnMessage cm] /\
    sends_of tl = [(ws, JSON_stringify reply)] /\
    this (after (handleMessage ws msg) w) = this w).
  { subst t i cm reply. unfold handleMessage. run. rewrite Hparse. run.
    rewrite Hty. run. rewrite Hdd. run. rewrite Hping. run. rewrite Hslot. run.
    rewrite Hthrow. run.
    destruct thrown as [e0|n|]; [|discriminate Hnn|]; run;
    destruct (sendError (heap (env w) ws)); simpl;
      eexists; rewrite <- ?app_assoc; (split; [reflexivity|]); simpl; auto. }
  destruct Hshape as (tl & Htr & Hres & Hh & Hs & Hthis).
  subst evs. rewrite (events_of_app _ _ _ Htr). auto 10.
Qed.

End Inbound.

(** ** Disconnects *)

(** A defaulted id is never falsy: the guard [if (clientId)] of
    [handleError] always holds. *)
Lemma js_or_truthy (o : option string) (d : string) :
  d <> "" -> truthy (Some (js_or o d)) = true.
Proof.
  intros Hd. unfold js_or, truthy.
  destruct o as [s|].
  - destruct (String.eqb s "") eqn:E.
    + apply negb_true_iff, String.eqb_neq, Hd.
    + rewrite E. reflexivity.
  - apply negb_true_iff, String.eqb_neq, Hd.
Qed.

(** Whatever the handle, [handleError] deletes the id it computed and
    calls [onClientDisconnect] with it. *)
Lemma handleError_always_disconnects (w : World) (ws : href) (err : Exn)
    (f : string -> option Thrown) :
  onClientDisconnect (handlers (this w)) = Some f ->
  let id := js_or (data_clientId (heap (env w) ws)) "unknown" in
  exists tl,
    trace (env (after (handleError ws err) w)) = trace (env w) ++ tl /\
    handler_calls tl = [EOnClientDisconnect id] /\
    clients (this (after (handleError ws err) w)) = Map_delete id (clients (this w)).
Proof.
  intros Hslot id. subst id. unfold handleError. unfold_monad.
  rewrite js_or_truthy by discriminate. run. rewrite Hslot. run.
  match goal with |- context [f ?a] => destruct (f a) end; run;
    eexists; rewrite <- ?app_assoc; (split; [reflexivity|]); simpl; auto.
Qed.

(** C8, on the code.  An error event on a handle without metadata: the id
    is the sentinel "unknown", the guard [if (clientId)] holds, the
    registry entry of that name, if any, is deleted and
    [onClientDisconnect] is called with "unknown". *)
Theorem handleError_unresolved_still_disconnects (w : World) (ws : href) (err : Exn)
    (f : string -> option Thrown) :
  data (heap (env w) ws) = None ->
  onClientDisconnect (handlers (this w)) = Some f ->
  js_or (data_clientId (heap (env w) ws)) "unknown" = "unknown" /\
  handler_calls (events_of (handleError ws err) w) = [EOnClientDisconnect "unknown"] /\
  clients (this (after (handleError ws err) w))
  = Map_delete "unknown" (clients (this w)).
Proof.
  intros Hdata Hslot.
  destruct (handleError_always_disconnects w ws err f Hslot) as (tl & Htr & Hh & Hc).
  rewrite (events_of_app _ _ _ Htr), Hh, Hc.
  unfold data_clientId. rewrite Hdata. auto.
Qed.

(** The sibling path: a close event on a handle without metadata does
    nothing. *)
Lemma handleClose_unresolved_noop (w : World) (ws : href) :
  data (heap (env w) ws) = None ->
  handleClose ws w = (Ok tt, w).
Proof.
  intros Hdata. unfold handleClose, data_clientId. run. rewrite Hdata. reflexivity.
Qed.

(** ** The outbound operations *)

Lemma set_clients_id (b : CCWebSocket) : set_clients (clients b) b = b.
Proof. destruct b; reflexivity. Qed.

Lemma set_trace_id (e : Env) : set_trace (trace e) e = e.
Proof. destruct e; reflexivity. Qed.

Lemma filter_filter {A} (f g : A -> bool) (l : list A) :
  List.filter f (List.filter g l) = List.filter (fun x => g x && f x) l.
Proof.
  induction l as [|x l IH]; simpl; [reflexivity|].
  destruct (g x); simpl; [destruct (f x)|]; rewrite IH; reflexivity.
Qed.

Lemma filter_all {A} (f : A -> bool) (l : list A) :
  (forall x, f x = true) -> List.filter f l = l.
Proof.
  intros Hf. induction l as [|x l IH]; simpl; [reflexivity|].
  rewrite Hf, IH. reflexivity.
Qed.

(** *** The Map *)


Lemma Map_get_filter_out {V} (f : string -> bool) (k : string) (m : list (string * V)) :
  f k = true ->
  Map_get k (List.filter (fun p => negb (f (fst p))) m) = None.
Proof.
  intros Hk. unfold Map_get.
  induction m as [|[k' v] m IH]; simpl; [reflexivity|].
  destruct (f k') eqn:Hk'; simpl; [exact IH|].
  destruct (String.eqb k' k) eqn:E; [|exact IH].
  apply String.eqb_eq in E. congruence.
Qed.

Lemma Map_get_delete_eq {V} (k : string) (m : list (string * V)) :
  Map_get k (Map_delete k m) = None.
Proof.
  unfold Map_delete.
  apply (Map_get_filter_out (fun k' => String.eqb k' k)). apply String.eqb_refl.
Qed.

Lemma Map_get_set_eq {V} (k : string) (v : V) (m : list (string * V)) :
  Map_get k (Map_set k v m) = Some v.
Proof.
  unfold Map_set. destruct (Map_has k m) eqn:Hhas.
  - unfold Map_has, Map_get in *. induction m as [|[k' v'] m IH]; simpl in *; [discriminate|].
    destruct (String.eqb k' k) eqn:E; simpl.
    + rewrite String.eqb_refl. reflexivity.
    + rewrite E. apply IH. exact Hhas.
  - unfold Map_has, Map_get in *. induction m as [|[k' v'] m IH]; simpl in *.
    + rewrite String.eqb_refl. reflexivity.
    + destruct (String.eqb k' k) eqn:E; simpl in *; [discriminate|]. apply IH. exact Hhas.
Qed.


(** Case analysis on the next value a method body branches on. *)
Ltac split_head :=
  match goal with
  | E : ?x = _ |- context [match ?x with _ => _ end] => rewrite E
  | |- context [match ?x with _ => _ end] =>
      lazymatch type of x with
      | option _ => idtac
      | Callback _ => idtac
      | Thrown => idtac
      | sum _ _ => idtac
      | bool => idtac
      end;
      destruct x eqn:?
  end.

Section Outbound.
Context `{Platform}.

(** The loop of [send] over the entries of the Map: one [ws.send] per open
    handle, the count of those that returned, and the registry without the
    ids whose write failed. *)
Lemma send_loop (frame : string) (entries : list (string * href)) :
  forall (w : World) (n : nat),
  exists tl,
    result (for_of_acc entries (send_one frame) n) w
    = Ok (n + length (delivered tl)) /\
    this (after (for_of_acc entries (send_one frame) n) w)
    = set_clients
        (List.filter (fun p => negb (in_ids (failed_ids (heap (env w)) entries) (fst p)))
                     (clients (this w)))
        (this w) /\
    env (after (for_of_acc entries (send_one frame) n) w)
    = set_trace (trace (env w) ++ tl) (env w) /\
    sends_of tl
    = map (fun p => (snd p, frame))
          (List.filter (fun p => is_open (heap (env w)) (snd p)) entries) /\
    delivered tl
    = map (fun p => (snd p, frame))
          (List.filter (fun p => is_open (heap (env w)) (snd p)
                                 && negb (write_fails (heap (env w)) (snd p))) entries) /\
    handler_calls tl = [] /\
    closes_of tl = [].
Proof.
  induction entries as [|[id ws] rest IH]; intros w n.
  - exists []. run. rewrite app_nil_r, set_trace_id, Nat.add_0_r.
    rewrite filter_all by reflexivity. rewrite set_clients_id. auto 10.
  - simpl for_of_acc. unfold send_one at 1 3 5.
    unfold failed_ids, is_open, write_fails in *.
    run. fold (send_one frame).
    destruct (Z.eqb (readyState (heap (env w) ws)) 1) eqn:Hopen; simpl.
    + destruct (sendError (heap (env w) ws)) as [e|] eqn:Herr; simpl.
      * (* the write fails *)
        match goal with
        | |- context [for_of_acc rest (send_one frame) n ?w1] =>
            destruct (IH w1 n) as (tl & Hr & Ht & He & Hs & Hd & Hh & Hc)
        end.
        unfold result, after in *. simpl in *.
        eexists (EWsSend ws frame false :: EConsole LWarn _ :: tl).
        rewrite Hr, Ht, He. simpl. rewrite <- !app_assoc. simpl.
        rewrite Hs, Hd, Hh, Hc.
        repeat split; auto.
        unfold set_clients, Map_delete. simpl. f_equal.
        rewrite filter_filter. apply filter_ext. intros [k h]. simpl.
        rewrite negb_orb. reflexivity.
      * (* the write returns *)
        match goal with
        | |- context [for_of_acc rest (send_one frame) (S n) ?w1] =>
            destruct (IH w1 (S n)) as (tl & Hr & Ht & He & Hs & Hd & Hh & Hc)
        end.
        unfold result, after in *. simpl in *.
        exists (EWsSend ws frame true :: tl).
        rewrite Hr, Ht, He. simpl. rewrite <- !app_assoc. simpl.
        rewrite Hs, Hd, Hh, Hc.
        repeat split; auto; try (f_equal; lia).
    + destruct (IH w n) as (tl & Hr & Ht & He & Hs & Hd & Hh & Hc).
      unfold result, after in *.
      exists tl. rewrite Hr, Ht, He. auto 10.
Qed.

(** What [send] appends to the trace and leaves in the registry, on a
    running server. *)
Lemma send_shape (w : World) (d : JSON) (type : string) (s : Server) :
  server (this w) = Some s ->
  let hp := heap (env w) in
  let cs := clients (this w) in
  let frame :=
    JSON_stringify (broadcast_envelope type d (now_src (env w) (now_idx (env w)))) in
  exists tl,
    trace (env (after (send d type) w)) = trace (env w) ++ tl /\
    result (send d type) w = Ok tt /\
    sends_of tl
    = map (fun p => (snd p, frame)) (List.filter (fun p => is_open hp (snd p)) cs) /\
    delivered tl
    = map (fun p => (snd p, frame))
          (List.filter (fun p => is_open hp (snd p) && negb (write_fails hp (snd p))) cs) /\
    this (after (send d type) w)
    = set_clients (List.filter (fun p => negb (in_ids (failed_ids hp cs) (fst p))) cs)
                  (this w).
Proof.
  intros Hrun hp cs frame. subst hp cs frame. unfold send. run. rewrite Hrun. run.
  match goal with
  | |- context [for_of_acc ?es (send_one ?fr) 0 ?w1] =>
      destruct (send_loop fr es w1 0) as (tl & Hr & Ht & He & Hs & Hd & _);
      unfold result, after in Hr, Ht, He;
      destruct (for_of_acc es (send_one fr) 0 w1) as [r w2]
  end.
  simpl in *. subst r.
  destruct (Nat.ltb 0 (length (delivered tl))); simpl; rewrite He; simpl;
    eexists; rewrite <- ?app_assoc; (split; [reflexivity|]);
    rewrite ?sends_of_app, ?delivered_app; simpl; rewrite ?app_nil_r; auto.
Qed.

(** C5. On a running server [send] calls [ws.send] once per registered
    handle whose [readyState] is 1, in the order of the Map, and on no
    other handle; every call carries the same frame, an envelope without a
    [clientId] field; the frames written are those of the handles whose
    write returns; the registry loses the ids whose write failed, and
    nothing else. *)
Theorem send_broadcast (w : World) (d : JSON) (type : string) (s : Server) :
  server (this w) = Some s ->
  let hp := heap (env w) in
  let cs := clients (this w) in
  let envelope := broadcast_envelope type d (now_src (env w) (now_idx (env w))) in
  let frame := JSON_stringify envelope in
  let evs := events_of (send d type) w in
  result (send d type) w = Ok tt /\
  get_prop envelope "clientId" = inr None /\
  sends_of evs
  = map (fun p => (snd p, frame)) (List.filter (fun p => is_open hp (snd p)) cs) /\
  delivered evs
  = map (fun p => (snd p, frame))
        (List.filter (fun p => is_open hp (snd p) && negb (write_fails hp (snd p))) cs) /\
  this (after (send d type) w)
  = set_clients (List.filter (fun p => negb (in_ids (failed_ids hp cs) (fst p))) cs)
                (this w).
Proof.
  intros Hrun hp cs envelope frame evs.
  destruct (send_shape w d type s Hrun) as (tl & Htr & Hres & Hs & Hd & Hthis).
  subst evs. rewrite (events_of_app _ _ _ Htr).
  split; [exact Hres|]. split; [reflexivity|]. auto.
Qed.

(** What [sendToClient] appends to the trace and leaves in the registry,
    case by case. *)
Lemma sendToClient_shape (w : World) (id : string) (d : JSON) (type : string) :
  let hp := heap (env w) in
  let cs := clients (this w) in
  let envelope := unicast_envelope type d (now_src (env w) (now_idx (env w))) id in
  let w' := after (sendToClient id d type) w in
  exists tl,
    trace (env w') = trace (env w) ++ tl /\
    result (sendToClient id d type) w = Ok tt /\
    (server (this w) = None ->
       sends_of tl = [] /\ warnings tl = [["WebSocket server is not running"]] /\
       this w' = this w /\ env w' = set_trace (trace (env w) ++ tl) (env w)) /\
    (server (this w) <> None -> Map_get id cs = None ->
       sends_of tl = [] /\ warnings tl = [["Client " +:+ id +:+ " not found"]] /\
       this w' = this w /\ env w' = set_trace (trace (env w) ++ tl) (env w)) /\
    (forall ws, server (this w) <> None -> Map_get id cs = Some ws ->
       sends_of tl = (if is_open hp ws then [(ws, JSON_stringify envelope)] else []) /\
       delivered tl = (if is_open hp ws && negb (write_fails hp ws)
                       then [(ws, JSON_stringify envelope)] else []) /\
       this w' = (if is_open hp ws && write_fails hp ws
                  then set_clients (Map_delete id cs) (this w)
                  else this w)).
Proof.
  intros hp cs envelope w'. subst hp cs envelope w'.
  unfold sendToClient, is_open, write_fails. run.
  destruct (server (this w)) as [srv|] eqn:Hsrv; run.
  - destruct (Map_get id (clients (this w))) as [ws|] eqn:Hget; run.
    + destruct (Z.eqb (readyState (heap (env w) ws)) 1) eqn:Hopen; run.
      * destruct (sendError (heap (env w) ws)) as [e|] eqn:Herr; run;
          eexists; rewrite <- ?app_assoc; (split; [reflexivity|]);
          (split; [reflexivity|]);
          (split; [intros; discriminate|]);
          (split; [intros; discriminate|]);
          intros ws' _ Hws'; injection Hws' as <-;
          rewrite Hopen, Herr; simpl; auto.
      * exists []. rewrite app_nil_r.
        (split; [reflexivity|]); (split; [reflexivity|]);
          (split; [intros; discriminate|]);
          (split; [intros; discriminate|]).
        intros ws' _ Hws'; injection Hws' as <-. rewrite Hopen. simpl. auto.
    + eexists. (split; [reflexivity|]); (split; [reflexivity|]).
      split; [intros; discriminate|].
      split; [|intros; discriminate].
      intros _ _. simpl. repeat split; auto.
  - eexists. (split; [reflexivity|]); (split; [reflexivity|]).
    split; [|split; [intros Hn; contradiction Hn; reflexivity
                    |intros ws Hn; contradiction Hn; reflexivity]].
    intros _. simpl. repeat split; auto.
Qed.

(** C6. [sendToClient] returns normally in every case.  On a stopped
    server, or for an id that is not registered, it only warns: no
    [ws.send], the bridge unchanged.  For a registered id it calls
    [ws.send] on the handle of that id only, and only when its
    [readyState] is 1, once, with the envelope whose [clientId] is the
    given id; when that write fails the id is deleted from the registry. *)
Theorem sendToClient_unicast (w : World) (id : string) (d : JSON) (type : string) :
  let hp := heap (env w) in
  let cs := clients (this w) in
  let envelope := unicast_envelope type d (now_src (env w) (now_idx (env w))) id in
  let evs := events_of (sendToClient id d type) w in
  let w' := after (sendToClient id d type) w in
  result (sendToClient id d type) w = Ok tt /\
  get_prop envelope "clientId" = inr (Some (JStr id)) /\
  (server (this w) = None ->
     sends_of evs = [] /\ warnings evs = [["WebSocket server is not running"]] /\
     this w' = this w /\ env w' = set_trace (trace (env w) ++ evs) (env w)) /\
  (server (this w) <> None -> Map_get id cs = None ->
     sends_of evs = [] /\ warnings evs = [["Client " +:+ id +:+ " not found"]] /\
     this w' = this w /\ env w' = set_trace (trace (env w) ++ evs) (env w)) /\
  (forall ws, server (this w) <> None -> Map_get id cs = Some ws ->
     sends_of evs = (if is_open hp ws then [(ws, JSON_stringify envelope)] else []) /\
     delivered evs = (if is_open hp ws && negb (write_fails hp ws)
                      then [(ws, JSON_stringify envelope)] else []) /\
     this w' = (if is_open hp ws && write_fails hp ws
                then set_clients (Map_delete id cs) (this w)
                else this w)).
Proof.
  intros hp cs envelope evs w'.
  destruct (sendToClient_shape w id d type) as (tl & Htr & Hres & H1 & H2 & H3).
  subst evs. rewrite (events_of_app _ _ _ Htr).
  split; [exact Hres|]. split; [reflexivity|]. auto.
Qed.

(** The loop of [stop]: one [ws.close] per entry. *)
Lemma close_loop (entries : list (string * href)) :
  forall w : World,
  result (for_of_acc entries close_one tt) w = Ok tt /\
  this (after (for_of_acc entries close_one tt) w) = this w /\
  env (after (for_of_acc entries close_one tt) w)
  = set_trace (trace (env w)
               ++ map (fun p => EWsClose (snd p) 1000 "Server shutting down") entries)
              (env w).
Proof.
  induction entries as [|[id ws] rest IH]; intros w.
  - run. rewrite app_nil_r, set_trace_id. auto.
  - assert (E : close_one id ws tt w
                = (Ok tt, with_env (fun en =>
                     set_trace (trace en ++ [EWsClose ws 1000 "Server shutting down"]) en) w))
      by reflexivity.
    unfold result, after. cbn [for_of_acc]. unfold bind. rewrite E.
    match goal with
    | |- context [for_of_acc rest close_one tt ?w1] =>
        destruct (IH w1) as (Hr & Ht & He)
    end.
    unfold result, after in Hr, Ht, He. rewrite Hr, Ht, He. simpl.
    rewrite <- app_assoc. auto.
Qed.

(** A call on a stopped server warns and does nothing else. *)
Lemma stopped_call_noop (c : OutCall) (w : World) :
  server (this w) = None ->
  result (run_call c) w = Ok tt /\
  this (after (run_call c) w) = this w /\
  env (after (run_call c) w)
  = set_trace (trace (env w) ++ [EConsole LWarn ["WebSocket server is not running"]])
              (env w).
Proof.
  intros Hs. destruct c; simpl; unfold send, sendToClient; run; rewrite Hs; run; auto.
Qed.

Lemma stopped_calls_noop (cs : list OutCall) :
  forall w : World,
  server (this w) = None ->
  this (calls cs w) = this w /\
  exists warns,
    env (calls cs w) = set_trace (trace (env w) ++ warns) (env w) /\
    sends_of warns = [].
Proof.
  induction cs as [|c cs IH]; intros w Hs; simpl.
  - split; [reflexivity|]. exists []. rewrite app_nil_r, set_trace_id. auto.
  - destruct (stopped_call_noop c w Hs) as (_ & Ht & He).
    destruct (IH (after (run_call c) w)) as (Ht' & warns & He' & Hw).
    { rewrite Ht. exact Hs. }
    unfold calls in *. simpl. rewrite Ht', Ht. split; [reflexivity|].
    eexists (_ :: warns). rewrite He', He. simpl. rewrite <- app_assoc. simpl.
    split; [reflexivity|exact Hw].
Qed.

(** C7. [stop] on a running server returns normally and leaves an empty
    registry and [isRunning = false]; after it, and after any further
    [send] and [sendToClient] calls, one more such call returns normally,
    calls no [ws.send] and leaves the bridge as [stop] left it; the calls
    only add warnings to the console. *)
Theorem stop_then_silent (w : World) (s : Server) (cs : list OutCall) (c : OutCall) :
  server (this w) = Some s ->
  let w1 := after stop w in
  let w2 := calls cs w1 in
  result stop w = Ok tt /\
  clients (this w1) = [] /\
  connectedClients (getStatus (this w1)) = 0 /\
  isRunning (getStatus (this w1)) = false /\
  this w2 = this w1 /\
  (exists warns, env w2 = set_trace (trace (env w1) ++ warns) (env w1) /\
                 sends_of warns = []) /\
  result (run_call c) w2 = Ok tt /\
  sends_of (events_of (run_call c) w2) = [] /\
  this (after (run_call c) w2) = this w1.
Proof.
  intros Hrun w1 w2.
  assert (Hstop : result stop w = Ok tt /\ clients (this w1) = [] /\
                  server (this w1) = None).
  { subst w1. unfold stop. run. rewrite Hrun. run.
    match goal with
    | |- context [for_of_acc ?es close_one tt ?w0] =>
        destruct (close_loop es w0) as (Hr & Ht & He);
        unfold result, after in Hr, Ht, He;
        destruct (for_of_acc es close_one tt w0) as [r w3]
    end.
    simpl in *. subst r. simpl. auto. }
  destruct Hstop as (Hres & Hcl & Hsrv).
  destruct (stopped_calls_noop cs w1 Hsrv) as (Ht2 & warns & He2 & Hw).
  fold w2 in Ht2, He2.
  assert (Hsrv2 : server (this w2) = None) by (rewrite Ht2; exact Hsrv).
  destruct (stopped_call_noop c w2 Hsrv2) as (Hr3 & Ht3 & He3).
  repeat split; auto.
  - unfold getStatus. simpl. rewrite Hcl. reflexivity.
  - unfold getStatus. simpl. rewrite Hsrv. reflexivity.
  - exists warns. auto.
  - rewrite (events_of_app _ _ [EConsole LWarn ["WebSocket server is not running"]]).
    + reflexivity.
    + rewrite He3. reflexivity.
  - rewrite Ht3. exact Ht2.
Qed.

(** [handleMessage] never touches the fields of the bridge, whatever the
    frame, the callbacks and the outcome of its writes. *)
Lemma handleMessage_this (w : World) (ws : href) (msg : string) :
  this (after (handleMessage ws msg) w) = this w.
Proof.
  unfold handleMessage.
  repeat (run; split_head).
  all: run; reflexivity.
Qed.

(** [handleOpen] registers the handle under the id it drew, whatever the
    callback and the welcome write do. *)
Lemma handleOpen_clients (w : World) (ws : href) :
  clients (this (after (handleOpen ws) w))
  = Map_set (id_of_draw (next_draw w)) ws (clients (this w)).
Proof.
  unfold handleOpen, generateClientId, id_of_draw, next_draw.
  repeat (run; split_head).
  all: run; reflexivity.
Qed.


End Outbound.

(** ** Client ids *)

Lemma append_nil (s : string) : "" +:+ s = s.
Proof. reflexivity. Qed.

Lemma append_cons (c : ascii) (a s : string) : String c a +:+ s = String c (a +:+ s).
Proof. reflexivity. Qed.

Lemma append_inj_l (x a b : string) : x +:+ a = x +:+ b -> a = b.
Proof.
  induction x as [|c x IH]; rewrite ?append_nil, ?append_cons; [auto|].
  intros [= E]. auto.
Qed.

Lemma pretty_N_go_no_underscore (x : N) :
  forall s, no_underscore s = true -> no_underscore (pretty_N_go x s) = true.
Proof.
  induction (N.lt_wf_0 x) as [x _ IH]; intros s Hs.
  destruct (N.eq_dec x 0%N) as [->|Hx].
  - rewrite pretty_N_go_0. exact Hs.
  - rewrite pretty_N_go_step by lia. apply IH.
    + apply N.div_lt; lia.
    + simpl. rewrite Hs, andb_true_r.
      unfold pretty_N_char. repeat case_match; reflexivity.
Qed.

Lemma pretty_Z_no_underscore (z : Z) : no_underscore (pretty z) = true.
Proof.
  destruct z as [|p|p]; [reflexivity| |].
  - change (pretty (Z.pos p)) with (pretty (N.pos p)).
    unfold pretty, pretty_N. case_decide; [reflexivity|].
    apply pretty_N_go_no_underscore. reflexivity.
  - change (pretty (Z.neg p)) with ("-" +:+ pretty (N.pos p)).
    rewrite append_cons, append_nil. simpl.
    unfold pretty, pretty_N. case_decide; [reflexivity|].
    apply pretty_N_go_no_underscore. reflexivity.
Qed.

(** Two texts cut at their first underscore. *)
Lemma split_at_underscore (a b s t : string) :
  no_underscore a = true -> no_underscore b = true ->
  a +:+ "_" +:+ s = b +:+ "_" +:+ t -> a = b /\ s = t.
Proof.
  revert b. induction a as [|c a IH]; intros [|c' b] Ha Hb E;
    repeat (rewrite append_nil in E || rewrite append_cons in E); simpl in Ha, Hb.
  - injection E as ->. auto.
  - injection E as <- _. rewrite Ascii.eqb_refl in Hb. discriminate.
  - injection E as -> _. rewrite Ascii.eqb_refl in Ha. discriminate.
  - injection E as -> E. apply andb_true_iff in Ha as [_ Ha], Hb as [_ Hb].
    destruct (IH b Ha Hb E) as [-> ->]. auto.
Qed.

(** The id is the draw, spelled out: equal ids come from equal draws. *)
Lemma id_of_draw_inj (d1 d2 : Z * string) : id_of_draw d1 = id_of_draw d2 -> d1 = d2.
Proof.
  destruct d1 as [t1 s1], d2 as [t2 s2]. unfold id_of_draw. simpl.
  intros E. apply append_inj_l in E.
  apply split_at_underscore in E as [Et ->]; auto using pretty_Z_no_underscore.
  apply (inj pretty) in Et. subst. reflexivity.
Qed.

Lemma NoDup_map_inj {A B} (f : A -> B) (l : list A) :
  (forall x y, f x = f y -> x = y) -> List.NoDup l -> List.NoDup (map f l).
Proof.
  intros Hinj. induction 1 as [|x l Hx Hl IH]; simpl; constructor; [|exact IH].
  intros Hin. apply in_map_iff in Hin as (y & Hy & Hin).
  apply Hinj in Hy. subst y. exact (Hx Hin).
Qed.

Lemma Map_has_keys {V} (k : string) (m : list (string * V)) :
  ~ In k (Map_keys m) -> Map_has k m = false.
Proof.
  unfold Map_has, Map_keys. induction m as [|[k' v] m IH]; simpl; [reflexivity|].
  intros Hn. destruct (String.eqb k' k) eqn:E; simpl.
  - apply String.eqb_eq in E. tauto.
  - apply IH. tauto.
Qed.

Section Ids.
Context `{Platform}.

(** A run of opens whose ids are new and distinct appends one entry per
    open, in order. *)
Lemma opens_append (hs : list href) :
  forall w : World,
  List.NoDup (Map_keys (clients (this w)) ++ map id_of_draw (open_draws hs w)) ->
  clients (this (opens hs w))
  = clients (this w) ++ combine (map id_of_draw (open_draws hs w)) hs.
Proof.
  induction hs as [|h hs IH]; intros w Hnd; simpl in *.
  - rewrite app_nil_r. reflexivity.
  - unfold opens in *. simpl.
    assert (Hc : clients (this (after (handleOpen h) w))
                 = clients (this w) ++ [(id_of_draw (next_draw w), h)]).
    { rewrite handleOpen_clients. unfold Map_set. rewrite Map_has_keys; [reflexivity|].
      apply NoDup_remove_2 in Hnd. intros Hin. apply Hnd. apply in_or_app. auto. }
    rewrite IH.
    + rewrite Hc, <- app_assoc. reflexivity.
    + rewrite Hc. unfold Map_keys in *. rewrite map_app, <- app_assoc. exact Hnd.
Qed.

(** C1, as the code has it.  From an empty registry, a run of opens whose
    draws (clock reading, random suffix) are pairwise distinct leaves one
    entry per open, under pairwise distinct ids, each handle under the id
    spelled from its draw. *)
Theorem opens_distinct_draws (hs : list href) (w : World) :
  clients (this w) = [] ->
  List.NoDup (open_draws hs w) ->
  let ids := map id_of_draw (open_draws hs w) in
  length (clients (this (opens hs w))) = length hs /\
  clients (this (opens hs w)) = combine ids hs /\
  List.NoDup ids.
Proof.
  intros Hempty Hnd ids.
  assert (Hids : List.NoDup ids).
  { subst ids. apply NoDup_map_inj; [|exact Hnd].
    intros x y. apply id_of_draw_inj. }
  assert (Hlen : length ids = length hs).
  { subst ids. rewrite length_map. clear. revert w.
    induction hs as [|h hs IH]; intros w; simpl; [reflexivity|]. rewrite IH. reflexivity. }
  assert (Hc : clients (this (opens hs w)) = combine ids hs).
  { rewrite opens_append; rewrite Hempty; [reflexivity|exact Hids]. }
  repeat split; auto.
  rewrite Hc, length_combine, Hlen. apply Nat.min_id.
Qed.

End Ids.

(** ** The theorems at work on the sample world *)

Module Run.

#[local] Existing Instance RefJSON.platform.

Ltac nodup_closed :=
  repeat (constructor; [simpl; intuition discriminate|]); constructor.

(** C1: two opens in the same millisecond with the same random text get
    the same id, and the registry holds one entry. *)
Lemma same_draw_same_id :
  let w := opens [5; 6] Sample.stuck in
  clients (this Sample.stuck) = [] /\
  data_clientId (heap (env w) 5) = Some "client_1700000000000_4fzyo82mv" /\
  data_clientId (heap (env w) 6) = Some "client_1700000000000_4fzyo82mv" /\
  length (clients (this w)) = 1 /\
  ~ (length (clients (this w)) = 2).
Proof. vm_compute. repeat split; discriminate. Qed.

Lemma opens_distinct_draws_witness :
  clients (this Sample.fresh) = [] /\
  List.NoDup (open_draws [5; 6; 7] Sample.fresh) /\
  length (clients (this (opens [5; 6; 7] Sample.fresh))) = 3.
Proof.
  assert (Hnd : List.NoDup (open_draws [5; 6; 7] Sample.fresh)).
  { vm_compute. nodup_closed. }
  split; [reflexivity|]. split; [exact Hnd|].
  exact (proj1 (opens_distinct_draws (H := RefJSON.platform) [5; 6; 7] Sample.fresh eq_refl Hnd)).
Defined.



Lemma handleError_unresolved_still_disconnects_witness :
  data (heap (env Sample.world) 5) = None /\
  handler_calls (events_of (handleError 5 (Error "reset")) Sample.world)
  = [EOnClientDisconnect "unknown"].
Proof.
  split; [reflexivity|].
  exact (proj1 (proj2 (handleError_unresolved_still_disconnects Sample.world 5
                         (Error "reset") (fun _ => None) eq_refl eq_refl))).
Defined.

Lemma malformed_frame_error_reply_witness :
  JSON_parse "not json"
  = inl (Error "JSON Parse error: Unexpected identifier") /\
  handler_calls (events_of (handleMessage 0 "not json") Sample.world) = [] /\
  map fst (sends_of (events_of (handleMessage 0 "not json") Sample.world)) = [0].
Proof.
  split; [reflexivity|].
  destruct (malformed_frame_error_reply (H := RefJSON.platform) Sample.world 0 "not json"
              (Error "JSON Parse error: Unexpected identifier") eq_refl)
    as (_ & Hh & Hs & _).
  split; [exact Hh|]. rewrite Hs. reflexivity.
Defined.

Lemma ping_pong_reply_witness :
  JSON_parse Sample.ping_frame = inr (JObj [("type", JStr "ping")]) /\
  lookup_field "type" [("type", JStr "ping")] = Some (JStr "ping") /\
  handler_calls (events_of (handleMessage 0 Sample.ping_frame) Sample.world) = [] /\
  delivered (events_of (handleMessage 0 Sample.ping_frame) Sample.world)
  = [(0, JSON_stringify
           (JObj [("type", JStr "pong");
                  ("data", JObj [("timestamp", JNum 1700000000001)]);
                  ("timestamp", JNum 1700000000002)]))].
Proof.
  split; [reflexivity|]. split; [reflexivity|].
  destruct (ping_pong_reply (H := RefJSON.platform) Sample.world 0 Sample.ping_frame [("type", JStr "ping")]
              eq_refl eq_refl)
    as (_ & Hh & _ & Hd & _).
  split; [exact Hh|exact Hd].
Defined.

(** C10: a callback that throws [null] is not answered: the read of
    [error.message] in the catch block throws in its turn, no envelope is
    sent and the [TypeError] leaves [handleMessage]. *)
Lemma onMessage_throw_null_escapes :
  let w := Scenes.careless in
  let cm := {| cm_type := Some (JStr "chat"); cm_data := Some (JArr [JNum 1; JNum 2]);
               cm_timestamp := 1700000000000; cm_clientId := "client_1_a" |} in
  JSON_parse Scenes.chat_frame
  = inr (JObj [("type", JStr "chat"); ("data", JArr [JNum 1; JNum 2])]) /\
  outcome (onMessage (handlers (this w))) cm = Some (ThrownNullish JSNull) /\
  handler_calls (events_of (handleMessage 0 Scenes.chat_frame) w) = [EOnMessage cm] /\
  sends_of (events_of (handleMessage 0 Scenes.chat_frame) w) = [] /\
  result (handleMessage 0 Scenes.chat_frame) w
  = Throw (Raised (Error "null is not an object (evaluating 'error.message')")) /\
  result (handleMessage 0 Scenes.chat_frame) w <> Ok tt.
Proof. vm_compute. repeat split. discriminate. Qed.

Lemma onMessage_throw_error_reply_witness :
  JSON_parse Sample.boom_frame = inr (JObj [("type", JStr "boom")]) /\
  handler_calls (events_of (handleMessage 0 Sample.boom_frame) Sample.world)
  = [EOnMessage {| cm_type := Some (JStr "boom"); cm_data := None;
                   cm_timestamp := 1700000000000; cm_clientId := "client_1_a" |}] /\
  map fst (sends_of (events_of (handleMessage 0 Sample.boom_frame) Sample.world))
  = [0].
Proof.
  split; [reflexivity|].
  destruct (onMessage_throw_error_reply (H := RefJSON.platform) Sample.world 0 Sample.boom_frame
              (JObj [("type", JStr "boom")]) (Some (JStr "boom")) None
              (fun m => match cm_type m with
                        | Some (JStr "boom") => Some (Raised (Error "handler failed"))
                        | _ => None
                        end)
              (Raised (Error "handler failed"))
              eq_refl eq_refl eq_refl eq_refl eq_refl eq_refl eq_refl)
    as (_ & Hh & Hs & _).
  split; [exact Hh|]. rewrite Hs. reflexivity.
Defined.

Lemma send_broadcast_witness :
  server (this Sample.world) = Some {| hostname := "localhost"; srv_port := 3001 |} /\
  map fst (sends_of (events_of (send (JObj [("x", JNum 1)]) "evt") Sample.world))
  = [0; 1] /\
  map fst (delivered (events_of (send (JObj [("x", JNum 1)]) "evt") Sample.world))
  = [0] /\
  clients (this (after (send (JObj [("x", JNum 1)]) "evt") Sample.world))
  = [("client_1_a", 0); ("client_1_c", 2)].
Proof.
  split; [reflexivity|].
  destruct (send_broadcast (H := RefJSON.platform) Sample.world (JObj [("x", JNum 1)]) "evt"
              {| hostname := "localhost"; srv_port := 3001 |} eq_refl)
    as (_ & _ & Hs & Hd & Ht).
  rewrite Hs, Hd, Ht. repeat split.
Defined.

Lemma sendToClient_unicast_witness :
  server (this Sample.world) <> None /\
  Map_get "client_1_b" (clients (this Sample.world)) = Some 1 /\
  Map_get "nobody" (clients (this Sample.world)) = None /\
  sends_of (events_of (sendToClient "nobody" JNull "evt") Sample.world) = [] /\
  clients (this (after (sendToClient "client_1_b" JNull "evt") Sample.world))
  = [("client_1_a", 0); ("client_1_c", 2)].
Proof.
  assert (Hrun : server (this Sample.world) <> None) by discriminate.
  split; [exact Hrun|]. split; [reflexivity|]. split; [reflexivity|].
  split.
  - destruct (sendToClient_unicast (H := RefJSON.platform) Sample.world "nobody" JNull "evt")
      as (_ & _ & _ & Hmiss & _).
    exact (proj1 (Hmiss Hrun eq_refl)).
  - destruct (sendToClient_unicast (H := RefJSON.platform) Sample.world "client_1_b" JNull "evt")
      as (_ & _ & _ & _ & Hhit).
    destruct (Hhit 1 Hrun eq_refl) as (_ & _ & Ht). rewrite Ht. reflexivity.
Defined.

Lemma stop_then_silent_witness :
  server (this Sample.world) = Some {| hostname := "localhost"; srv_port := 3001 |} /\
  clients (this (after (stop) Sample.world)) = [] /\
  sends_of (events_of (run_call (CSend JNull "evt"))
              (calls [CSendToClient "client_1_a" JNull "evt"]
                     (after stop Sample.world))) = [].
Proof.
  split; [reflexivity|].
  destruct (stop_then_silent (H := RefJSON.platform) Sample.world {| hostname := "localhost"; srv_port := 3001 |}
              [CSendToClient "client_1_a" JNull "evt"] (CSend JNull "evt") eq_refl)
    as (_ & Hc & _ & _ & _ & _ & _ & Hs & _).
  split; [exact Hc|exact Hs].
Defined.

End Run.

(* ===================================================================== *)
(** * Further properties of the class *)
(* ===================================================================== *)

(** ** Construction and life cycle *)

(** X1. The constructor keeps each option it is given and replaces a
    missing or falsy one (port 0, the empty string) by its default: 3001,
    "localhost", "/ws".  A bridge just built is stopped, with an empty
    registry, start time 0 and the handlers it was given. *)
Theorem constructor_config (c : WebSocketConfig) (h : MessageHandlers) :
  let b := new_CCWebSocket c h in
  (forall p, cfg_port c = Some p -> p <> 0%Z -> port (config b) = p) /\
  (cfg_port c = None \/ cfg_port c = Some 0%Z -> port (config b) = 3001%Z) /\
  (forall s, cfg_host c = Some s -> s <> "" -> host (config b) = s) /\
  (cfg_host c = None \/ cfg_host c = Some "" -> host (config b) = "localhost") /\
  (forall s, cfg_path c = Some s -> s <> "" -> path (config b) = s) /\
  (cfg_path c = None \/ cfg_path c = Some "" -> path (config b) = "/ws") /\
  server b = None /\
  clients b = [] /\
  startTime b = 0%Z /\
  handlers b = h /\
  isRunning (getStatus b) = false /\
  connectedClients (getStatus b) = 0 /\
  getConnectedClients b = [].
Proof.
  simpl. unfold or_port, js_or. repeat split.
  - intros p -> Hp. apply Z.eqb_neq in Hp. rewrite Hp. reflexivity.
  - intros [-> | ->]; reflexivity.
  - intros s -> Hs. apply String.eqb_neq in Hs. rewrite Hs. reflexivity.
  - intros [-> | ->]; reflexivity.
  - intros s -> Hs. apply String.eqb_neq in Hs. rewrite Hs. reflexivity.
  - intros [-> | ->]; reflexivity.
Qed.

Section LifeCycle.
Context `{Platform}.

(** The loop of [stop] leaves the environment as it was, its trace apart. *)
Lemma stop_shape (w : World) (s : Server) :
  server (this w) = Some s ->
  result stop w = Ok tt /\
  this (after stop w) = set_server None (set_clients [] (this w)) /\
  env (after stop w)
  = set_trace (trace (env w)
               ++ map (fun p => EWsClose (snd p) 1000 "Server shutting down")
                      (clients (this w))
               ++ [EServerStop; EConsole LLog ["✅ WebSocket server stopped"]])
              (env w).
Proof.
  intros Hrun. unfold stop. run. rewrite Hrun. run.
  match goal with
  | |- context [for_of_acc ?es close_one tt ?w0] =>
      destruct (close_loop es w0) as (Hr & Ht & He);
      unfold result, after in Hr, Ht, He;
      destruct (for_of_acc es close_one tt w0) as [r w3]
  end.
  simpl in *. subst r. simpl. rewrite Ht, He. simpl.
  rewrite <- !app_assoc. simpl. auto.
Qed.

(** X2. [start] on a stopped bridge whose [Bun.serve] succeeds returns
    normally with the server set, [isRunning] true, the start time read
    from the clock and the registry as it was; a second [start] then throws
    "WebSocket server is already running" and changes nothing. *)
Theorem start_then_start_again (w : World) (serve : Config -> Exn + Server) (s : Server) :
  server (this w) = None ->
  Bun_serve (env w) = Some serve ->
  serve (config (this w)) = inr s ->
  let w1 := after start w in
  result start w = Ok tt /\
  server (this w1) = Some s /\
  isRunning (getStatus (this w1)) = true /\
  startTime (this w1) = now_src (env w) (now_idx (env w)) /\
  clients (this w1) = clients (this w) /\
  start w1 = (Throw (Error "WebSocket server is already running"), w1).
Proof.
  intros Hstop Hbun Hserve w1. subst w1.
  unfold start, getStatus. run. rewrite Hstop. run. rewrite Hbun. run.
  rewrite Hserve. run. repeat split; reflexivity.
Qed.

(** X3. When [Bun.serve] is missing or throws, [start] reports the failure
    on [console.error], throws it to its caller, and leaves the bridge
    stopped, its fields untouched. *)
Theorem start_failure_stays_stopped (w : World) (e : Exn) :
  server (this w) = None ->
  (Bun_serve (env w) = None /\
   e = Error "Bun.serve is not available. Please run this code in a Bun environment.")
  \/ (exists serve, Bun_serve (env w) = Some serve /\ serve (config (this w)) = inl e) ->
  result start w = Throw e /\
  this (after start w) = this w /\
  events_of start w = [EConsole LError ["Failed to start WebSocket server:"; message e]].
Proof.
  intros Hstop Hfail.
  assert (Hshape : result start w = Throw e /\ this (after start w) = this w /\
    trace (env (after start w))
    = trace (env w) ++ [EConsole LError ["Failed to start WebSocket server:"; message e]]).
  { unfold start. run. rewrite Hstop. run.
    destruct Hfail as [[Hbun ->] | (serve & Hbun & Hserve)]; rewrite Hbun; run.
    - auto.
    - rewrite Hserve. run. auto. }
  destruct Hshape as (Hr & Ht & Htr).
  rewrite (events_of_app _ _ _ Htr). auto.
Qed.

(** X4. [stop] twice is [stop] once: the second call returns at once and
    changes nothing, whether the first found the server running or not. *)
Theorem stop_idempotent (w : World) :
  stop (after stop w) = (Ok tt, after stop w).
Proof.
  assert (Hs : server (this (after stop w)) = None).
  { destruct (server (this w)) as [s|] eqn:Hrun.
    - destruct (stop_shape w s Hrun) as (_ & -> & _). reflexivity.
    - unfold stop. run. rewrite Hrun. run. exact Hrun. }
  remember (after stop w) as w1 eqn:E. clear E.
  unfold stop. run. rewrite Hs. reflexivity.
Qed.

(** X5. [stop] on a running server appends to the trace, in this order: one
    [ws.close(1000, 'Server shutting down')] per registered handle, in the
    order of the Map; one [server.stop()]; the console line.  It calls no
    callback and writes to no handle. *)
Theorem stop_closes_every_client (w : World) (s : Server) :
  server (this w) = Some s ->
  events_of stop w
  = map (fun p => EWsClose (snd p) 1000 "Server shutting down") (clients (this w))
    ++ [EServerStop; EConsole LLog ["✅ WebSocket server stopped"]] /\
  closes_of (events_of stop w) = map snd (clients (this w)) /\
  handler_calls (events_of stop w) = [] /\
  sends_of (events_of stop w) = [].
Proof.
  intros Hrun. destruct (stop_shape w s Hrun) as (_ & _ & He).
  rewrite (events_of_app _ _
             (map (fun p => EWsClose (snd p) 1000 "Server shutting down") (clients (this w))
              ++ [EServerStop; EConsole LLog ["✅ WebSocket server stopped"]])).
  2: { rewrite He. reflexivity. }
  split; [reflexivity|].
  generalize (clients (this w)) as l.
  induction l as [|[k ws] l IH]; simpl.
  - auto.
  - destruct IH as (-> & -> & ->). auto.
Qed.

(** X6. A stopped bridge starts again: after [stop] on a running server, a
    [start] whose [Bun.serve] succeeds returns normally, with the server
    set and an empty registry. *)
Theorem stop_then_start (w : World) (s0 s : Server) (serve : Config -> Exn + Server) :
  server (this w) = Some s0 ->
  Bun_serve (env w) = Some serve ->
  serve (config (this w)) = inr s ->
  let w2 := after start (after stop w) in
  result start (after stop w) = Ok tt /\
  server (this w2) = Some s /\
  clients (this w2) = [] /\
  config (this w2) = config (this w).
Proof.
  intros Hrun Hbun Hserve w2.
  destruct (stop_shape w s0 Hrun) as (_ & Ht & He).
  assert (H1 : server (this (after stop w)) = None) by (rewrite Ht; reflexivity).
  assert (H2 : Bun_serve (env (after stop w)) = Some serve) by (rewrite He; exact Hbun).
  assert (H3 : serve (config (this (after stop w))) = inr s) by (rewrite Ht; exact Hserve).
  destruct (after stop w) as [b1 e1] eqn:Ew1. subst w2. simpl in *.
  unfold start. run. rewrite H1. run. rewrite H2. run. rewrite H3. run.
  subst b1. repeat split; reflexivity.
Qed.

End LifeCycle.

(** ** Reading a trace *)

Lemma closes_of_app (a b : list Event) : closes_of (a ++ b) = closes_of a ++ closes_of b.
Proof.
  induction a as [|x a IH]; simpl; [reflexivity|].
  destruct x; simpl; rewrite ?IH; reflexivity.
Qed.

Lemma handler_calls_app (a b : list Event) :
  handler_calls (a ++ b) = handler_calls a ++ handler_calls b.
Proof. apply List.filter_app. Qed.

Lemma called_handler_calls {A} (slot : Callback A) (ev : A -> Event) (a : A) :
  is_handler_call (ev a) = true ->
  handler_calls (called slot ev a) = called slot ev a.
Proof. intros He. destruct slot; simpl; [rewrite He|]; reflexivity. Qed.

Lemma called_sends {A} (slot : Callback A) (ev : A -> Event) (a : A) :
  is_handler_call (ev a) = true -> sends_of (called slot ev a) = [].
Proof.
  intros He. destruct slot; simpl; [|reflexivity].
  destruct (ev a); try discriminate; reflexivity.
Qed.


(** ** Dispatch of inbound frames *)

Section Dispatch.
Context `{Platform}.

(** A frame that parses and is not a ping: the callbacks called, the
    reply sent and the outcome, from what the two callbacks do.  The trace
    holds the callback calls, then what the catch block prints and
    sends. *)
Lemma dispatch_shape (w : World) (ws : href) (msg : string)
    (d : JSON) (ty dd : option JSON) :
  JSON_parse msg = inr d ->
  get_prop d "type" = inr ty ->
  get_prop d "data" = inr dd ->
  is_ping ty = false ->
  let t := now_src (env w) in
  let i := now_idx (env w) in
  let id := js_or (data_clientId (heap (env w) ws)) "unknown" in
  let cm := {| cm_type := ty; cm_data := dd; cm_timestamp := t i; cm_clientId := id |} in
  let hs := handlers (this w) in
  let err :=
    (ws, JSON_stringify
           (JObj [("type", JStr "error");
                  ("data", JObj [("message", JStr "Invalid message format");
                                 ("timestamp", JNum (t (1 + i)))]);
                  ("timestamp", JNum (t (2 + i)))])) in
  let thrown := first_thrown (outcome (onMessage hs) cm)
                             (outcome (onCustomMessage hs) (ty, dd, id)) in
  let calls_made :=
    called (onMessage hs) EOnMessage cm
    ++ match outcome (onMessage hs) cm with
       | None => called (onCustomMessage hs) EOnCustomMessage (ty, dd, id)
       | Some _ => []
       end in
  exists tl,
    trace (env (after (handleMessage ws msg) w)) = trace (env w) ++ calls_made ++ tl /\
    handler_calls tl = [] /\
    (thrown = None -> tl = []) /\
    result (handleMessage ws msg) w
    = match thrown with
      | Some (ThrownNullish n) => Throw (Raised (no_message n "error"))
      | _ => Ok tt
      end /\
    this (after (handleMessage ws msg) w) = this w /\
    sends_of tl
    = match thrown with
      | Some t' => if is_nullish t' then [] else [err]
      | None => []
      end.
Proof.
  intros Hparse Hty Hdd Hping t i id cm hs err thrown calls_made.
  subst t i id cm hs err thrown calls_made.
  unfold handleMessage, called, outcome, first_thrown. run. rewrite Hparse. run.
  rewrite Hty. run. rewrite Hdd. run. rewrite Hping. run.
  repeat (run; split_head).
  all: run; rewrite <- ?app_assoc; simpl;
    first [ eexists; (split; [reflexivity|])
          | exists []; rewrite ?app_nil_r; (split; [reflexivity|]) ];
    simpl; repeat split; auto; discriminate.
Qed.

(** X8. For callbacks that return without calling back into the bridge
    (the callbacks of this development: a callback returns or throws, and
    does nothing else).  A frame that parses, is not a ping, and whose
    callbacks return: [onMessage], if set, is called first, with the
    parsed type and data, the receipt time read from the clock and the id
    of the connection's metadata; then [onCustomMessage], if set, with the
    same type, data and id.  [handleMessage] itself does nothing else: the
    two calls are its whole trace (no write on a handle, no line on the
    console), and it leaves the fields of the bridge as they were. *)
Theorem dispatch_in_order (w : World) (ws : href) (msg : string)
    (d : JSON) (ty dd : option JSON) :
  JSON_parse msg = inr d ->
  get_prop d "type" = inr ty ->
  get_prop d "data" = inr dd ->
  is_ping ty = false ->
  let id := js_or (data_clientId (heap (env w) ws)) "unknown" in
  let cm := {| cm_type := ty; cm_data := dd;
               cm_timestamp := now_src (env w) (now_idx (env w)); cm_clientId := id |} in
  outcome (onMessage (handlers (this w))) cm = None ->
  outcome (onCustomMessage (handlers (this w))) (ty, dd, id) = None ->
  let evs := events_of (handleMessage ws msg) w in
  result (handleMessage ws msg) w = Ok tt /\
  evs = called (onMessage (handlers (this w))) EOnMessage cm
        ++ called (onCustomMessage (handlers (this w))) EOnCustomMessage (ty, dd, id) /\
  sends_of evs = [] /\
  this (after (handleMessage ws msg) w) = this w.
Proof.
  intros Hparse Hty Hdd Hping id cm H1 H2 evs.
  destruct (dispatch_shape w ws msg d ty dd Hparse Hty Hdd Hping)
    as (tl & Htr & _ & Hnil & Hr & Ht & _).
  subst evs. rewrite (events_of_app _ _ _ Htr).
  fold id in Hnil, Hr |- *. fold cm in Hnil, Hr |- *.
  rewrite H1, H2 in Hnil, Hr. rewrite H1. simpl in Hnil, Hr.
  rewrite (Hnil eq_refl), app_nil_r.
  repeat split; auto.
  rewrite sends_of_app, !called_sends; reflexivity.
Qed.

(** X9. When [onCustomMessage] throws a value other than [null] and
    [undefined] on such a frame, after [onMessage] returned: both
    callbacks have been called, the envelope [{type: "error", data:
    {message: "Invalid message format", timestamp}, timestamp}] is sent
    on the handle the frame came from, and [handleMessage] returns
    normally. *)
Theorem onCustomMessage_throw_error_reply (w : World) (ws : href) (msg : string)
    (d : JSON) (ty dd : option JSON) (thrown : Thrown) :
  JSON_parse msg = inr d ->
  get_prop d "type" = inr ty ->
  get_prop d "data" = inr dd ->
  is_ping ty = false ->
  let t := now_src (env w) in
  let i := now_idx (env w) in
  let id := js_or (data_clientId (heap (env w) ws)) "unknown" in
  let cm := {| cm_type := ty; cm_data := dd; cm_timestamp := t i; cm_clientId := id |} in
  outcome (onMessage (handlers (this w))) cm = None ->
  outcome (onCustomMessage (handlers (this w))) (ty, dd, id) = Some thrown ->
  is_nullish thrown = false ->
  let reply :=
    JObj [("type", JStr "error");
          ("data", JObj [("message", JStr "Invalid message format");
                         ("timestamp", JNum (t (1 + i)))]);
          ("timestamp", JNum (t (2 + i)))] in
  let evs := events_of (handleMessage ws msg) w in
  result (handleMessage ws msg) w = Ok tt /\
  handler_calls evs
  = called (onMessage (handlers (this w))) EOnMessage cm ++ [EOnCustomMessage (ty, dd, id)] /\
  sends_of evs = [(ws, JSON_stringify reply)] /\
  this (after (handleMessage ws msg) w) = this w.
Proof.
  intros Hparse Hty Hdd Hping t i id cm H1 H2 Hnn reply evs.
  destruct (dispatch_shape w ws msg d ty dd Hparse Hty Hdd Hping)
    as (tl & Htr & Hh & _ & Hr & Ht & Hs).
  subst evs. rewrite (events_of_app _ _ _ Htr).
  fold t i in Hr, Hs |- *. fold id in Hr, Hs |- *. fold cm in Hr, Hs |- *.
  rewrite H1, H2 in Hr, Hs. rewrite H1. simpl in Hr, Hs. rewrite Hnn in Hs.
  assert (Hc : called (onCustomMessage (handlers (this w))) EOnCustomMessage (ty, dd, id)
               = [EOnCustomMessage (ty, dd, id)]).
  { unfold outcome in H2. unfold called.
    destruct (onCustomMessage (handlers (this w))); [reflexivity|discriminate]. }
  rewrite !handler_calls_app, !sends_of_app, Hh, Hs, Hc, app_nil_r.
  rewrite called_handler_calls, called_sends by reflexivity.
  repeat split; auto.
  destruct thrown; [exact Hr|discriminate Hnn|exact Hr].
Qed.

(** X28. When a callback of [handleMessage] throws [null] or [undefined],
    the read of [error.message] in the catch block throws in its turn:
    no reply is sent, nothing is printed, and the [TypeError] of that read
    leaves [handleMessage]. *)
Theorem callback_throws_nullish_escapes (w : World) (ws : href) (msg : string)
    (d : JSON) (ty dd : option JSON) (n : Nullish) :
  JSON_parse msg = inr d ->
  get_prop d "type" = inr ty ->
  get_prop d "data" = inr dd ->
  is_ping ty = false ->
  let id := js_or (data_clientId (heap (env w) ws)) "unknown" in
  let cm := {| cm_type := ty; cm_data := dd;
               cm_timestamp := now_src (env w) (now_idx (env w)); cm_clientId := id |} in
  first_thrown (outcome (onMessage (handlers (this w))) cm)
               (outcome (onCustomMessage (handlers (this w))) (ty, dd, id))
  = Some (ThrownNullish n) ->
  let evs := events_of (handleMessage ws msg) w in
  result (handleMessage ws msg) w = Throw (Raised (no_message n "error")) /\
  sends_of evs = [] /\
  warnings evs = [] /\
  handler_calls evs <> [] /\
  this (after (handleMessage ws msg) w) = this w.
Proof.
  intros Hparse Hty Hdd Hping id cm Hth evs.
  assert (Hshape : exists tl,
    trace (env (after (handleMessage ws msg) w)) = trace (env w) ++ tl /\
    result (handleMessage ws msg) w = Throw (Raised (no_message n "error")) /\
    sends_of tl = [] /\ warnings tl = [] /\ handler_calls tl <> [] /\
    this (after (handleMessage ws msg) w) = this w).
  { subst id cm. revert Hth.
    unfold handleMessage, outcome, first_thrown. run. rewrite Hparse. run.
    rewrite Hty. run. rewrite Hdd. run. rewrite Hping. run.
    repeat (run; split_head).
    all: run; intros Hth; try congruence; injection Hth as ->;
      rewrite <- ?app_assoc;
      eexists; (split; [reflexivity|]); simpl; repeat split; auto; discriminate. }
  destruct Hshape as (tl & Htr & Hr & Hs & Hw & Hh & Ht).
  subst evs. rewrite (events_of_app _ _ _ Htr). auto.
Qed.

(** X10. The frame [null] is JSON, but reading [data.type] on it throws:
    the frame reaches no callback and is answered like a frame that does
    not parse, with the one envelope [{type: "error", data: {message:
    "Invalid message format", timestamp}, timestamp}] on the handle it
    came from. *)
Theorem null_frame_error_reply (w : World) (ws : href) (msg : string) :
  JSON_parse msg = inr JNull ->
  let evs := events_of (handleMessage ws msg) w in
  let t := now_src (env w) in
  let i := now_idx (env w) in
  let reply :=
    JObj [("type", JStr "error");
          ("data", JObj [("message", JStr "Invalid message format");
                         ("timestamp", JNum (t i))]);
          ("timestamp", JNum (t (S i)))] in
  result (handleMessage ws msg) w = Ok tt /\
  handler_calls evs = [] /\
  sends_of evs = [(ws, JSON_stringify reply)] /\
  this (after (handleMessage ws msg) w) = this w.
Proof.
  intros Hparse evs t i reply.
  assert (Hshape : exists tl,
    trace (env (after (handleMessage ws msg) w)) = trace (env w) ++ tl /\
    result (handleMessage ws msg) w = Ok tt /\
    handler_calls tl = [] /\
    sends_of tl = [(ws, JSON_stringify reply)] /\
    this (after (handleMessage ws msg) w) = this w).
  { subst t i reply. unfold handleMessage. run. rewrite Hparse. run.
    destruct (sendError (heap (env w) ws)); simpl;
      eexists; rewrite <- ?app_assoc; (split; [reflexivity|]); simpl; auto. }
  destruct Hshape as (tl & Htr & Hres & Hh & Hs & Hthis).
  subst evs. rewrite (events_of_app _ _ _ Htr). auto.
Qed.

(** X11. A frame that parses to a number, a string, a boolean or an array
    is dispatched all the same: the callbacks that are set are called with
    an undefined type and undefined data. *)
Theorem non_object_frame_dispatched (w : World) (ws : href) (msg : string) (d : JSON) :
  JSON_parse msg = inr d ->
  not_object d = true ->
  let id := js_or (data_clientId (heap (env w) ws)) "unknown" in
  let cm := {| cm_type := None; cm_data := None;
               cm_timestamp := now_src (env w) (now_idx (env w)); cm_clientId := id |} in
  outcome (onMessage (handlers (this w))) cm = None ->
  outcome (onCustomMessage (handlers (this w))) (None, None, id) = None ->
  let evs := events_of (handleMessage ws msg) w in
  result (handleMessage ws msg) w = Ok tt /\
  handler_calls evs
  = called (onMessage (handlers (this w))) EOnMessage cm
    ++ called (onCustomMessage (handlers (this w))) EOnCustomMessage (None, None, id) /\
  sends_of evs = [].
Proof.
  intros Hparse Hd id cm H1 H2 evs.
  assert (Hprop : forall k, get_prop d k = inr None).
  { intros k. destruct d; try discriminate Hd; reflexivity. }
  destruct (dispatch_shape w ws msg d None None Hparse (Hprop "type") (Hprop "data") eq_refl)
    as (tl & Htr & Hh & Hnil & Hr & Ht & Hs).
  subst evs. rewrite (events_of_app _ _ _ Htr).
  fold id in Hnil, Hr, Hs |- *. fold cm in Hnil, Hr, Hs |- *.
  rewrite H1, H2 in Hnil, Hr, Hs. rewrite H1. simpl in Hnil, Hr, Hs.
  rewrite (Hnil eq_refl), app_nil_r.
  rewrite handler_calls_app, sends_of_app, !called_handler_calls, !called_sends by reflexivity.
  auto.
Qed.

End Dispatch.

(** ** Connections: open, close, error *)

Lemma Map_get_delete_ne {V} (k k' : string) (m : list (string * V)) :
  k' <> k -> Map_get k' (Map_delete k m) = Map_get k' m.
Proof.
  intros Hne. unfold Map_get, Map_delete.
  induction m as [|[k0 v] m IH]; simpl; [reflexivity|].
  destruct (String.eqb k0 k) eqn:E; simpl.
  - apply String.eqb_eq in E. subst k0.
    destruct (String.eqb k k') eqn:E'; [|exact IH].
    apply String.eqb_eq in E'. congruence.
  - destruct (String.eqb k0 k'); [reflexivity|exact IH].
Qed.

Lemma Map_delete_fresh {V} (k : string) (m : list (string * V)) :
  ~ In k (Map_keys m) -> Map_delete k m = m.
Proof.
  unfold Map_delete, Map_keys. induction m as [|[k0 v] m IH]; simpl; [reflexivity|].
  intros Hn. destruct (String.eqb k0 k) eqn:E; simpl.
  - apply String.eqb_eq in E. tauto.
  - rewrite IH by tauto. reflexivity.
Qed.

Lemma Map_delete_set_fresh {V} (k : string) (v : V) (m : list (string * V)) :
  ~ In k (Map_keys m) -> Map_delete k (Map_set k v m) = m.
Proof.
  intros Hn. unfold Map_set. rewrite Map_has_keys by exact Hn.
  unfold Map_delete. rewrite List.filter_app. simpl. rewrite String.eqb_refl. simpl.
  rewrite app_nil_r. apply Map_delete_fresh. exact Hn.
Qed.

Lemma id_of_draw_generated (d : Z * string) : is_generated (id_of_draw d) = true.
Proof. unfold id_of_draw. rewrite !append_cons, append_nil. reflexivity. Qed.

Lemma is_generated_nonempty (id : string) : is_generated id = true -> id <> "".
Proof. intros Hg ->. discriminate Hg. Qed.

Section Connections.
Context `{Platform}.

(** What [handleOpen] does, from what [onClientConnect] does. *)
Lemma handleOpen_shape (w : World) (ws : href) :
  let t := now_src (env w) in
  let i := now_idx (env w) in
  let id := id_of_draw (next_draw w) in
  let slot := onClientConnect (handlers (this w)) in
  let frame :=
    JSON_stringify
      (JObj [("type", JStr "connected");
             ("data", JObj [("clientId", JStr id);
                            ("message", JStr "Connected to CC WebSocket server");
                            ("timestamp", JNum (t (2 + i)))]);
             ("timestamp", JNum (t (3 + i)))]) in
  let welcome := (ws, frame) in
  let w' := after (handleOpen ws) w in
  exists tl,
    trace (env w') = trace (env w) ++ tl /\
    result (handleOpen ws) w
    = match outcome slot id with Some e => Throw e | None => Ok tt end /\
    tl = EConsole LLog ["🔗 Client connected: " +:+ id +:+ " (total: "
                        +:+ pretty (length (Map_set id ws (clients (this w)))) +:+ ")"]
         :: called slot EOnClientConnect id
         ++ match outcome slot id with
            | Some _ => []
            | None =>
                match sendError (heap (env w) ws) with
                | None => [EWsSend ws frame true]
                | Some e =>
                    [EWsSend ws frame false;
                     EConsole LWarn ["Failed to send welcome message to " +:+ id +:+ ":";
                                     message e]]
                end
            end /\
    handler_calls tl = called slot EOnClientConnect id /\
    sends_of tl = match outcome slot id with Some _ => [] | None => [welcome] end /\
    delivered tl
    = match outcome slot id with
      | Some _ => []
      | None => if write_fails (heap (env w)) ws then [] else [welcome]
      end /\
    heap (env w') ws
    = {| readyState := readyState (heap (env w) ws);
         data := Some {| clientId := id; connectedAt := t (1 + i) |};
         sendError := sendError (heap (env w) ws) |} /\
    (forall ws', ws' <> ws -> heap (env w') ws' = heap (env w) ws') /\
    handlers (this w') = handlers (this w).
Proof.
  intros t i id slot frame welcome w'. subst t i id slot frame welcome w'.
  unfold handleOpen, generateClientId, id_of_draw, next_draw, called, outcome, write_fails.
  assert (Hne : forall ws', ws' <> ws -> Nat.eqb ws' ws = false)
    by (intros ws' Hn; apply Nat.eqb_neq; exact Hn).
  repeat (run; rewrite ?Nat.eqb_refl; split_head).
  all: run; rewrite ?Nat.eqb_refl;
    eexists; rewrite <- ?app_assoc; (split; [reflexivity|]); simpl;
    repeat split; auto; try (intros ws' Hn; rewrite (Hne ws' Hn); reflexivity).
  all: simpl in *;
    try match goal with
    | E : sendError ?o = _, E' : context [sendError ?o] |- _ =>
        rewrite E in E'; discriminate E'
    end.
  all: try congruence.
  all: repeat match goal with
       | E : Some _ = Some _ |- _ => injection E as E; subst
       end; reflexivity.
Qed.

(** X12. For an [onClientConnect] that returns without calling back into
    the bridge (the callbacks of this development: a callback returns or
    throws, and does nothing else), or that is not set.  [handleOpen]
    returns normally and its whole trace is, in this order: the console
    line, the call of [onClientConnect] with the id drawn, and one
    [ws.send] on the new handle with the envelope [{type: "connected",
    data: {clientId, message: "Connected to CC WebSocket server",
    timestamp}, timestamp}] that carries that id, followed by a warning
    when that write throws.  The handle has received the id and the
    connect time read from the clock; the metadata of the other handles
    is untouched. *)
Theorem handleOpen_welcome (w : World) (ws : href) :
  let t := now_src (env w) in
  let i := now_idx (env w) in
  let id := id_of_draw (next_draw w) in
  outcome (onClientConnect (handlers (this w))) id = None ->
  let evs := events_of (handleOpen ws) w in
  let w' := after (handleOpen ws) w in
  let frame :=
    JSON_stringify
      (JObj [("type", JStr "connected");
             ("data", JObj [("clientId", JStr id);
                            ("message", JStr "Connected to CC WebSocket server");
                            ("timestamp", JNum (t (2 + i)))]);
             ("timestamp", JNum (t (3 + i)))]) in
  result (handleOpen ws) w = Ok tt /\
  evs = EConsole LLog ["🔗 Client connected: " +:+ id +:+ " (total: "
                       +:+ pretty (length (Map_set id ws (clients (this w)))) +:+ ")"]
        :: called (onClientConnect (handlers (this w))) EOnClientConnect id
        ++ match sendError (heap (env w) ws) with
           | None => [EWsSend ws frame true]
           | Some e =>
               [EWsSend ws frame false;
                EConsole LWarn ["Failed to send welcome message to " +:+ id +:+ ":";
                                message e]]
           end /\
  handler_calls evs = called (onClientConnect (handlers (this w))) EOnClientConnect id /\
  sends_of evs = [(ws, frame)] /\
  data (heap (env w') ws) = Some {| clientId := id; connectedAt := t (1 + i) |} /\
  readyState (heap (env w') ws) = readyState (heap (env w) ws) /\
  (forall ws', ws' <> ws -> heap (env w') ws' = heap (env w) ws').
Proof.
  intros t i id Hret evs w' frame.
  destruct (handleOpen_shape w ws) as (tl & Htr & Hr & Htl & Hh & Hs & _ & Hhp & Hother & _).
  fold t i id in Hr, Htl, Hh, Hs, Hhp. fold frame in Htl, Hs.
  rewrite Hret in Hr, Htl, Hs.
  subst evs w'. rewrite (events_of_app _ _ _ Htr), Hhp. simpl.
  repeat split; auto.
Qed.

(** X13. When [onClientConnect] throws, [handleOpen] throws the same
    value to the transport: no welcome is sent, and the connection stays
    registered under its new id. *)
Theorem handleOpen_callback_throws (w : World) (ws : href) (e : Thrown) :
  let id := id_of_draw (next_draw w) in
  outcome (onClientConnect (handlers (this w))) id = Some e ->
  result (handleOpen ws) w = Throw e /\
  handler_calls (events_of (handleOpen ws) w) = [EOnClientConnect id] /\
  sends_of (events_of (handleOpen ws) w) = [] /\
  Map_get id (clients (this (after (handleOpen ws) w))) = Some ws.
Proof.
  intros id Hthrow.
  destruct (handleOpen_shape w ws) as (tl & Htr & Hr & _ & Hh & Hs & _).
  fold id in Hr, Hh, Hs. rewrite Hthrow in Hr, Hs.
  rewrite (events_of_app _ _ _ Htr), Hh, handleOpen_clients.
  repeat split; auto.
  - unfold outcome in Hthrow. unfold called.
    destruct (onClientConnect (handlers (this w))); [reflexivity|discriminate].
  - apply Map_get_set_eq.
Qed.

(** What [handleClose] does on a handle that carries a non-empty id. *)
Lemma handleClose_shape (w : World) (ws : href) (dt : WsData) :
  data (heap (env w) ws) = Some dt ->
  clientId dt <> "" ->
  let id := clientId dt in
  let slot := onClientDisconnect (handlers (this w)) in
  let w' := after (handleClose ws) w in
  exists tl,
    env w' = set_trace (trace (env w) ++ tl) (env w) /\
    result (handleClose ws) w
    = match outcome slot id with Some e => Throw e | None => Ok tt end /\
    this w' = set_clients (Map_delete id (clients (this w))) (this w) /\
    handler_calls tl = called slot EOnClientDisconnect id /\
    sends_of tl = [] /\
    closes_of tl = [].
Proof.
  intros Hdata Hne id slot w'. subst id slot w'.
  unfold handleClose, data_clientId, called, outcome. run. rewrite Hdata. simpl.
  apply String.eqb_neq in Hne. rewrite Hne. run.
  repeat (run; split_head).
  all: run; eexists; rewrite <- ?app_assoc; (split; [reflexivity|]); simpl; auto 10.
Qed.

(** What [handleError] does, whatever the handle. *)
Lemma handleError_shape (w : World) (ws : href) (err : Exn) :
  let id := js_or (data_clientId (heap (env w) ws)) "unknown" in
  let slot := onClientDisconnect (handlers (this w)) in
  let w' := after (handleError ws err) w in
  exists tl,
    env w' = set_trace (trace (env w) ++ tl) (env w) /\
    result (handleError ws err) w
    = match outcome slot id with Some e => Throw e | None => Ok tt end /\
    this w' = set_clients (Map_delete id (clients (this w))) (this w) /\
    handler_calls tl = called slot EOnClientDisconnect id /\
    sends_of tl = [] /\
    closes_of tl = [].
Proof.
  intros id slot w'. subst id slot w'.
  unfold handleError, called, outcome. unfold_monad.
  rewrite js_or_truthy by discriminate.
  repeat (run; split_head).
  all: run; eexists; rewrite <- ?app_assoc; (split; [reflexivity|]); simpl; auto 10.
Qed.

Lemma events_of_env {A} (m : M A) (w : World) (tl : list Event) :
  env (after m w) = set_trace (trace (env w) ++ tl) (env w) -> events_of m w = tl.
Proof. intros He. apply events_of_app. rewrite He. reflexivity. Qed.

(** X14. A close event on a handle that carries a non-empty id deletes
    that id from the registry and calls [onClientDisconnect], if set, with
    it, once; the other ids keep their handles, nothing is written and
    nothing is closed.  The callback is called whether or not the id was
    still registered. *)
Theorem handleClose_removes (w : World) (ws : href) (dt : WsData) :
  data (heap (env w) ws) = Some dt ->
  clientId dt <> "" ->
  let id := clientId dt in
  let evs := events_of (handleClose ws) w in
  let cs' := clients (this (after (handleClose ws) w)) in
  cs' = Map_delete id (clients (this w)) /\
  Map_get id cs' = None /\
  (forall id', id' <> id -> Map_get id' cs' = Map_get id' (clients (this w))) /\
  handler_calls evs = called (onClientDisconnect (handlers (this w))) EOnClientDisconnect id /\
  sends_of evs = [] /\
  closes_of evs = [].
Proof.
  intros Hdata Hne id evs cs'.
  destruct (handleClose_shape w ws dt Hdata Hne) as (tl & He & _ & Ht & Hh & Hs & Hc).
  subst evs cs'. rewrite (events_of_env _ _ _ He), Ht. simpl.
  repeat split; auto.
  - apply Map_get_delete_eq.
  - intros id' Hid'. apply Map_get_delete_ne. exact Hid'.
Qed.

(** X15. A close event on a handle without metadata, or whose id is the
    empty string, does nothing at all: no removal, no callback, no line on
    the console. *)
Theorem handleClose_unresolved (w : World) (ws : href) :
  truthy (data_clientId (heap (env w) ws)) = false ->
  handleClose ws w = (Ok tt, w).
Proof.
  intros Hf. unfold handleClose. unfold_monad.
  destruct (data_clientId (heap (env w) ws)) as [id|]; [|reflexivity].
  rewrite Hf. reflexivity.
Qed.

(** X16. Open, then close: when the id drawn for a new connection is not
    yet in the registry, the close event of that connection finds the id
    in the metadata [handleOpen] attached and gives back the registry as
    it was before the open. *)
Theorem open_close_roundtrip (w : World) (ws : href) :
  ~ In (id_of_draw (next_draw w)) (Map_keys (clients (this w))) ->
  let w1 := after (handleOpen ws) w in
  data_clientId (heap (env w1) ws) = Some (id_of_draw (next_draw w)) /\
  Map_get (id_of_draw (next_draw w)) (clients (this w1)) = Some ws /\
  clients (this (after (handleClose ws) w1)) = clients (this w).
Proof.
  intros Hfresh w1.
  destruct (handleOpen_shape w ws) as (tl & _ & _ & _ & _ & _ & _ & Hhp & _ & _).
  fold w1 in Hhp.
  assert (Hd : data (heap (env w1) ws)
               = Some {| clientId := id_of_draw (next_draw w);
                         connectedAt := now_src (env w) (1 + now_idx (env w)) |})
    by (rewrite Hhp; reflexivity).
  split; [unfold data_clientId; rewrite Hd; reflexivity|].
  split; [subst w1; rewrite handleOpen_clients; apply Map_get_set_eq|].
  destruct (handleClose_shape w1 ws _ Hd) as (tl' & _ & _ & Ht & _).
  { apply is_generated_nonempty, id_of_draw_generated. }
  rewrite Ht. simpl. subst w1. rewrite handleOpen_clients.
  apply Map_delete_set_fresh. exact Hfresh.
Qed.

(** X17. Once a connection is closed, [sendToClient] for its id writes
    nothing and leaves the bridge as the close left it. *)
Theorem close_then_sendToClient (w : World) (ws : href) (dt : WsData) (d : JSON)
    (type : string) :
  data (heap (env w) ws) = Some dt ->
  clientId dt <> "" ->
  let w1 := after (handleClose ws) w in
  result (sendToClient (clientId dt) d type) w1 = Ok tt /\
  sends_of (events_of (sendToClient (clientId dt) d type) w1) = [] /\
  this (after (sendToClient (clientId dt) d type) w1) = this w1.
Proof.
  intros Hdata Hne w1.
  destruct (handleClose_shape w ws dt Hdata Hne) as (tl & _ & _ & Ht & _).
  fold w1 in Ht.
  assert (Hget : Map_get (clientId dt) (clients (this w1)) = None)
    by (rewrite Ht; apply Map_get_delete_eq).
  destruct (sendToClient_shape w1 (clientId dt) d type)
    as (tl' & Htr & Hr & Hstopped & Hmissing & _).
  rewrite (events_of_app _ _ _ Htr). split; [exact Hr|].
  destruct (server (this w1)) as [s|] eqn:Hsrv.
  - destruct Hmissing as (Hs & _ & Hthis & _); [discriminate|exact Hget|]. auto.
  - destruct Hstopped as (Hs & _ & Hthis & _); [reflexivity|]. auto.
Qed.

(** X18. On a handle that carries a non-empty id, an error event does to
    the bridge what a close event does: the same registry afterwards, the
    same call of [onClientDisconnect], the same outcome. *)
Theorem handleError_like_handleClose (w : World) (ws : href) (dt : WsData) (err : Exn) :
  data (heap (env w) ws) = Some dt ->
  clientId dt <> "" ->
  this (after (handleError ws err) w) = this (after (handleClose ws) w) /\
  handler_calls (events_of (handleError ws err) w)
  = handler_calls (events_of (handleClose ws) w) /\
  result (handleError ws err) w = result (handleClose ws) w.
Proof.
  intros Hdata Hne.
  destruct (handleClose_shape w ws dt Hdata Hne) as (tl & He & Hr & Ht & Hh & _).
  destruct (handleError_shape w ws err) as (tl' & He' & Hr' & Ht' & Hh' & _).
  assert (Hid : js_or (data_clientId (heap (env w) ws)) "unknown" = clientId dt).
  { unfold data_clientId. rewrite Hdata. simpl.
    apply String.eqb_neq in Hne. rewrite Hne. reflexivity. }
  rewrite Hid in *.
  rewrite (events_of_env _ _ _ He), (events_of_env _ _ _ He'), Ht, Ht', Hh, Hh', Hr, Hr'.
  auto.
Qed.

(** X19. An error event followed by the close event of the same
    connection notifies the application twice: the close finds the id in
    the metadata, though the record is already gone, and calls
    [onClientDisconnect] again. *)
Theorem error_then_close_notifies_twice (w : World) (ws : href) (dt : WsData)
    (err : Exn) (f : string -> option Thrown) :
  data (heap (env w) ws) = Some dt ->
  clientId dt <> "" ->
  onClientDisconnect (handlers (this w)) = Some f ->
  let w1 := after (handleError ws err) w in
  handler_calls (events_of (handleError ws err) w) = [EOnClientDisconnect (clientId dt)] /\
  Map_get (clientId dt) (clients (this w1)) = None /\
  handler_calls (events_of (handleClose ws) w1) = [EOnClientDisconnect (clientId dt)].
Proof.
  intros Hdata Hne Hslot w1.
  destruct (handleError_shape w ws err) as (tl & He & _ & Ht & Hh & _).
  assert (Hid : js_or (data_clientId (heap (env w) ws)) "unknown" = clientId dt).
  { unfold data_clientId. rewrite Hdata. simpl.
    apply String.eqb_neq in Hne. rewrite Hne. reflexivity. }
  rewrite Hid in *. fold w1 in He, Ht.
  assert (Hdata1 : data (heap (env w1) ws) = Some dt) by (rewrite He; exact Hdata).
  assert (Hslot1 : onClientDisconnect (handlers (this w1)) = Some f)
    by (rewrite Ht; exact Hslot).
  destruct (handleClose_shape w1 ws dt Hdata1 Hne) as (tl1 & He1 & _ & _ & Hh1 & _).
  rewrite (events_of_env _ _ _ He), (events_of_env _ _ _ He1), Hh, Hh1, Hslot, Hslot1, Ht.
  simpl. repeat split. apply Map_get_delete_eq.
Qed.

End Connections.

(** ** More on the outbound operations *)

Lemma NoDup_keys_eq {V} (m : list (string * V)) (p q : string * V) :
  List.NoDup (Map_keys m) -> In p m -> In q m -> fst p = fst q -> p = q.
Proof.
  unfold Map_keys. induction m as [|x m IH]; simpl; [tauto|].
  intros Hnd [->|Hp] [->|Hq] Hk; auto.
  - inversion Hnd as [|? ? Hx _]; subst. exfalso. apply Hx.
    rewrite Hk. apply in_map. exact Hq.
  - inversion Hnd as [|? ? Hx _]; subst. exfalso. apply Hx.
    rewrite <- Hk. apply in_map. exact Hp.
  - inversion Hnd; subst. auto.
Qed.

Section OutboundMore.
Context `{Platform}.

(** X20. On a running server, [sendToClient] calls [ws.send] exactly when
    [isClientConnected] answers [true]; when [isClientConnected] answers
    [undefined] (the id is not registered) it only warns that the client
    was not found. *)
Theorem isClientConnected_iff_unicast_writes (w : World) (id : string) (d : JSON)
    (type : string) (s : Server) :
  server (this w) = Some s ->
  let evs := events_of (sendToClient id d type) w in
  (isClientConnected id w = Some true <-> sends_of evs <> []) /\
  (isClientConnected id w = None ->
   sends_of evs = [] /\ warnings evs = [["Client " +:+ id +:+ " not found"]]).
Proof.
  intros Hrun evs.
  destruct (sendToClient_shape w id d type) as (tl & Htr & _ & _ & Hmiss & Hhit).
  subst evs. rewrite (events_of_app _ _ _ Htr).
  assert (Hsrv : server (this w) <> None) by congruence.
  unfold isClientConnected.
  destruct (Map_get id (clients (this w))) as [ws|] eqn:Hget.
  - destruct (Hhit ws Hsrv eq_refl) as (Hs & _). rewrite Hs. unfold is_open.
    destruct (Z.eqb (readyState (heap (env w) ws)) 1);
      (split; [split; intros E|intros E]); try discriminate; try congruence; auto.
  - destruct (Hmiss Hsrv eq_refl) as (Hs & Hw & _). rewrite Hs.
    split; [split; [discriminate|congruence]|auto].
Qed.

(** X21. With the keys of the Map unique, [send] on a running server
    removes from the registry exactly the entries whose handle is open and
    whose write failed: an entry whose handle is not open is never pruned
    by a broadcast, and an entry whose write returned stays. *)
Theorem send_removes_exactly_failed (w : World) (d : JSON) (type : string) (s : Server) :
  server (this w) = Some s ->
  List.NoDup (Map_keys (clients (this w))) ->
  let hp := heap (env w) in
  let cs' := clients (this (after (send d type) w)) in
  cs' = List.filter (fun p => negb (is_open hp (snd p) && write_fails hp (snd p)))
                    (clients (this w)) /\
  (forall p, In p (clients (this w)) -> is_open hp (snd p) = false -> In p cs') /\
  (forall p, In p cs' -> In p (clients (this w))).
Proof.
  intros Hrun Hnd hp cs'.
  destruct (send_shape w d type s Hrun) as (tl & _ & _ & _ & _ & Ht).
  assert (Hcs : cs' = List.filter
                        (fun p => negb (is_open hp (snd p) && write_fails hp (snd p)))
                        (clients (this w))).
  { subst cs'. rewrite Ht. simpl. apply filter_ext_in. intros p Hp. f_equal.
    unfold in_ids, failed_ids. fold hp.
    destruct (is_open hp (snd p) && write_fails hp (snd p)) eqn:Ef.
    - apply existsb_exists. exists (fst p). split; [|apply String.eqb_refl].
      apply in_map. apply filter_In. auto.
    - apply not_true_is_false. intros Hex.
      apply existsb_exists in Hex as (k & Hk & Hkeq).
      apply String.eqb_eq in Hkeq. subst k.
      apply in_map_iff in Hk as (q & Hq & Hin).
      apply filter_In in Hin as (Hin & Hfq).
      assert (q = p) by (apply (NoDup_keys_eq _ _ _ Hnd Hin Hp); exact Hq).
      subst q. congruence. }
  split; [exact Hcs|]. rewrite Hcs. split.
  - intros p Hp Hclosed. apply filter_In. split; [exact Hp|]. rewrite Hclosed. reflexivity.
  - intros p Hp. apply filter_In in Hp. tauto.
Qed.

(** The loop of [send], event by event. *)
Lemma send_loop_events (frame : string) (entries : list (string * href)) :
  forall (w : World) (n : nat),
  trace (env (after (for_of_acc entries (send_one frame) n) w))
  = trace (env w) ++ flat_map (send_events (heap (env w)) frame) entries /\
  heap (env (after (for_of_acc entries (send_one frame) n) w)) = heap (env w) /\
  result (for_of_acc entries (send_one frame) n) w
  = Ok (n + length (delivered (flat_map (send_events (heap (env w)) frame) entries))).
Proof.
  induction entries as [|[id ws] rest IH]; intros w n.
  - run. rewrite app_nil_r, Nat.add_0_r. auto.
  - cbn [flat_map].
    remember (send_events (heap (env w)) frame (id, ws)) as ev eqn:Hev.
    unfold send_events in Hev. simpl in Hev.
    simpl for_of_acc. unfold send_one at 1 3 5.
    run. fold (send_one frame).
    destruct (Z.eqb (readyState (heap (env w) ws)) 1) eqn:Hopen; simpl.
    + destruct (sendError (heap (env w) ws)) as [e|] eqn:Herr; simpl; subst ev.
      * match goal with
        | |- context [for_of_acc rest (send_one frame) n ?w1] =>
            destruct (IH w1 n) as (Htr & Hhp & Hr)
        end.
        unfold result, after in *. simpl in *.
        rewrite Htr, Hhp, Hr. rewrite <- !app_assoc. simpl. auto.
      * match goal with
        | |- context [for_of_acc rest (send_one frame) (S n) ?w1] =>
            destruct (IH w1 (S n)) as (Htr & Hhp & Hr)
        end.
        unfold result, after in *. simpl in *.
        rewrite Htr, Hhp, Hr. rewrite <- !app_assoc. simpl.
        repeat split; auto; try (f_equal; lia).
    + subst ev. destruct (IH w n) as (Htr & Hhp & Hr).
      unfold result, after in *. rewrite Htr, Hhp, Hr. auto.
Qed.

(** X22. The whole trace of [send] on a running server: for each entry of
    the Map in order, the write on its handle if open, followed by a
    warning naming the client when the write throws; then one console
    line with the number of writes that returned, when that number is
    positive, and no line at all when nothing was written. *)
Theorem send_trace (w : World) (d : JSON) (type : string) (s : Server) :
  server (this w) = Some s ->
  let frame :=
    JSON_stringify (broadcast_envelope type d (now_src (env w) (now_idx (env w)))) in
  let loop := flat_map (send_events (heap (env w)) frame) (clients (this w)) in
  let n := length (delivered loop) in
  events_of (send d type) w
  = loop ++ (if Nat.ltb 0 n
             then [EConsole LLog ["📤 Sent " +:+ type +:+ " to " +:+ pretty n
                                  +:+ " client(s)"]]
             else []) /\
  handler_calls (events_of (send d type) w) = [] /\
  closes_of (events_of (send d type) w) = [].
Proof.
  intros Hrun frame loop n.
  assert (Htr : trace (env (after (send d type) w))
                = trace (env w) ++ loop
                  ++ (if Nat.ltb 0 n
                      then [EConsole LLog ["📤 Sent " +:+ type +:+ " to " +:+ pretty n
                                           +:+ " client(s)"]]
                      else [])).
  { subst n loop frame. unfold send. run. rewrite Hrun. run.
    match goal with
    | |- context [for_of_acc ?es (send_one ?fr) 0 ?w1] =>
        destruct (send_loop_events fr es w1 0) as (Htr & _ & Hr);
        unfold result, after in Htr, Hr;
        destruct (for_of_acc es (send_one fr) 0 w1) as [r w2]
    end.
    simpl in *. subst r.
    match goal with |- context [Nat.ltb 0 ?k] => destruct (Nat.ltb 0 k) end;
      simpl; rewrite Htr; rewrite <- ?app_assoc; rewrite ?app_nil_r; reflexivity. }
  rewrite (events_of_app _ _ _ Htr).
  split; [reflexivity|].
  assert (Hloop : handler_calls loop = [] /\ closes_of loop = []).
  { subst loop. generalize (clients (this w)) as l.
    induction l as [|p l [IH1 IH2]]; simpl; [auto|].
    rewrite handler_calls_app, closes_of_app, IH1, IH2. unfold send_events.
    destruct (Z.eqb (readyState (heap (env w) (snd p))) 1); [|auto].
    destruct (sendError (heap (env w) (snd p))); auto. }
  destruct Hloop as [Hh Hc].
  rewrite handler_calls_app, closes_of_app, Hh, Hc.
  destruct (Nat.ltb 0 n); auto.
Qed.


(** X29. The frames of the outbound operations, spelled out.  On a
    running server every [ws.send] of [send] carries the text of
    [{type, data, timestamp}], and the [ws.send] of [sendToClient] that of
    [{type, data, timestamp, clientId}]: the type and the data are the
    arguments, unchanged, the timestamp is the one reading of the clock
    the call takes, the keys come in this order and there is no other. *)
Theorem outbound_envelope_literal (w : World) (id : string) (d : JSON) (type : string)
    (s : Server) (ws : href) :
  server (this w) = Some s ->
  let t := now_src (env w) (now_idx (env w)) in
  let hp := heap (env w) in
  sends_of (events_of (send d type) w)
  = map (fun p => (snd p,
                   JSON_stringify
                     (JObj [("type", JStr type); ("data", d); ("timestamp", JNum t)])))
        (List.filter (fun p => is_open hp (snd p)) (clients (this w))) /\
  (Map_get id (clients (this w)) = Some ws -> is_open hp ws = true ->
   sends_of (events_of (sendToClient id d type) w)
   = [(ws, JSON_stringify
             (JObj [("type", JStr type); ("data", d); ("timestamp", JNum t);
                    ("clientId", JStr id)]))]).
Proof.
  intros Hrun t hp. split.
  - destruct (send_shape w d type s Hrun) as (tl & Htr & _ & Hs & _).
    rewrite (events_of_app _ _ _ Htr). exact Hs.
  - intros Hget Hopen.
    destruct (sendToClient_shape w id d type) as (tl & Htr & _ & _ & _ & H3).
    destruct (H3 ws) as (Hs & _); [congruence|exact Hget|].
    rewrite (events_of_app _ _ _ Htr), Hs. fold hp. rewrite Hopen. reflexivity.
Qed.

End OutboundMore.

(** ** What every run of a bridge keeps *)

Lemma Map_has_not_in {V} (k : string) (m : list (string * V)) :
  Map_has k m = false -> ~ In k (Map_keys m).
Proof.
  unfold Map_has, Map_keys. induction m as [|[k' v] m IH]; simpl; [tauto|].
  destruct (String.eqb k' k) eqn:E; simpl; [discriminate|].
  intros Hh [->|Hin]; [rewrite String.eqb_refl in E; discriminate|]. exact (IH Hh Hin).
Qed.

Lemma Map_has_get_none {V} (k : string) (m : list (string * V)) :
  Map_has k m = false -> Map_get k m = None.
Proof.
  unfold Map_has, Map_get. induction m as [|[k' v] m IH]; simpl; [reflexivity|].
  destruct (String.eqb k' k); simpl; [discriminate|exact IH].
Qed.

Lemma Map_set_keys {V} (k : string) (v : V) (m : list (string * V)) :
  Map_keys (Map_set k v m)
  = if Map_has k m then Map_keys m else Map_keys m ++ [k].
Proof.
  unfold Map_set. destruct (Map_has k m).
  - unfold Map_keys. rewrite map_map. apply map_ext. intros [k' v']. simpl.
    destruct (String.eqb k' k) eqn:E; [|reflexivity].
    apply String.eqb_eq in E. auto.
  - unfold Map_keys. rewrite map_app. reflexivity.
Qed.

Lemma filter_keys {V} (f : string -> bool) (m : list (string * V)) :
  Map_keys (List.filter (fun p => f (fst p)) m) = List.filter f (Map_keys m).
Proof.
  unfold Map_keys. induction m as [|[k v] m IH]; simpl; [reflexivity|].
  destruct (f k); simpl; rewrite IH; reflexivity.
Qed.

Section Invariants.
Context `{Platform}.

(** One step of a run either filters the registry by key or sets, in the
    registry, the id drawn by [generateClientId]; it never touches the
    configuration. *)
Lemma op_this (o : Op) (w : World) :
  let w' := after (run_op o) w in
  config (this w') = config (this w) /\
  ((exists f, clients (this w') = List.filter (fun p => f (fst p)) (clients (this w))) \/
   (exists ws, clients (this w') = Map_set (id_of_draw (next_draw w)) ws (clients (this w)))).
Proof.
  assert (Hsame : forall b b' : CCWebSocket,
    clients b' = clients b ->
    exists f : string -> bool, clients b' = List.filter (fun p => f (fst p)) (clients b)).
  { intros b b' ->. exists (fun _ => true). rewrite filter_all; reflexivity. }
  assert (Hdel : forall (b : CCWebSocket) k,
    exists f : string -> bool,
      Map_delete k (clients b) = List.filter (fun p => f (fst p)) (clients b)).
  { intros b k. exists (fun k' => negb (String.eqb k' k)). reflexivity. }
  destruct o as [| | h | d type | id d type | ws | ws | ws msg | ws err | f]; simpl.
  - (* start *)
    unfold start. repeat (run; split_head). all: run; split; auto.
  - (* stop *)
    destruct (server (this w)) as [s|] eqn:Hrun.
    + destruct (stop_shape w s Hrun) as (_ & -> & _). simpl. split; [reflexivity|].
      left. exists (fun _ => false). clear. induction (clients (this w)); auto.
    + unfold stop. run. rewrite Hrun. run. auto.
  - (* setHandlers *)
    unfold setHandlers. run. auto.
  - (* send *)
    destruct (server (this w)) as [s|] eqn:Hrun.
    + destruct (send_shape w d type s Hrun) as (tl & _ & _ & _ & _ & ->). simpl.
      split; [reflexivity|]. left. eexists (fun k => negb (in_ids _ k)). reflexivity.
    + destruct (stopped_call_noop (CSend d type) w Hrun) as (_ & Ht & _).
      simpl in Ht. rewrite Ht. auto.
  - (* sendToClient *)
    destruct (sendToClient_shape w id d type) as (tl & _ & _ & H1 & H2 & H3).
    destruct (server (this w)) as [s|] eqn:Hrun.
    + destruct (Map_get id (clients (this w))) as [ws|] eqn:Hget.
      * destruct (H3 ws) as (_ & _ & ->); [discriminate|reflexivity|].
        destruct (is_open (heap (env w)) ws && write_fails (heap (env w)) ws); simpl; auto.
      * destruct H2 as (_ & _ & -> & _); [discriminate|reflexivity|]. auto.
    + destruct H1 as (_ & _ & -> & _); [reflexivity|]. auto.
  - (* handleOpen *)
    split.
    + unfold handleOpen, generateClientId. repeat (run; split_head). all: reflexivity.
    + right. exists ws. apply handleOpen_clients.
  - (* handleClose *)
    unfold handleClose. unfold_monad.
    destruct (data_clientId (heap (env w) ws)) as [id|]; [|simpl; auto].
    destruct (truthy (Some id)); [|simpl; auto].
    repeat (run; split_head). all: run; split; auto.
  - (* handleMessage *)
    rewrite handleMessage_this. auto.
  - (* handleError *)
    destruct (handleError_shape w ws err) as (tl & _ & _ & -> & _). simpl. auto.
  - (* the environment *)
    auto.
Qed.

(** A property of the bridge that every step keeps holds along a run. *)
Lemma run_ops_keeps (P : CCWebSocket -> Prop) :
  (forall o w, P (this w) -> P (this (after (run_op o) w))) ->
  forall os w, P (this w) -> P (this (run_ops os w)).
Proof.
  intros Hstep os. induction os as [|o os IH]; intros w Hw; simpl; [exact Hw|].
  apply IH. apply Hstep. exact Hw.
Qed.

Lemma step_keys_unique (o : Op) (w : World) :
  List.NoDup (Map_keys (clients (this w))) ->
  List.NoDup (Map_keys (clients (this (after (run_op o) w)))).
Proof.
  intros Hnd. destruct (op_this o w) as (_ & [(f & ->) | (ws & ->)]).
  - rewrite filter_keys. apply List.NoDup_filter. exact Hnd.
  - rewrite Map_set_keys.
    destruct (Map_has _ _) eqn:Hh; [exact Hnd|].
    apply List.NoDup_app; [exact Hnd|repeat constructor; simpl; tauto|].
    intros k Hk [<-|[]]. exact (Map_has_not_in _ _ Hh Hk).
Qed.

Lemma step_keys_generated (o : Op) (w : World) :
  Forall (fun id => is_generated id = true) (Map_keys (clients (this w))) ->
  Forall (fun id => is_generated id = true)
         (Map_keys (clients (this (after (run_op o) w)))).
Proof.
  intros Hg. destruct (op_this o w) as (_ & [(f & ->) | (ws & ->)]).
  - rewrite filter_keys. rewrite List.Forall_forall in *. intros k Hk.
    apply filter_In in Hk. apply Hg. tauto.
  - rewrite Map_set_keys.
    destruct (Map_has _ _); [exact Hg|].
    apply Forall_app. split; [exact Hg|].
    constructor; [apply id_of_draw_generated|constructor].
Qed.

Lemma reachable_keys_generated (c : WebSocketConfig) (h : MessageHandlers) (e : Env)
    (os : list Op) :
  Forall (fun id => is_generated id = true)
         (Map_keys (clients (this (run_ops os (built c h e))))).
Proof.
  apply (run_ops_keeps
           (fun b => Forall (fun id => is_generated id = true) (Map_keys (clients b)))).
  - intros o w. apply step_keys_generated.
  - constructor.
Qed.

(** X24. In every state a bridge can reach from its construction,
    whatever its owner, the transport and the environment do, no id is
    listed twice by [getConnectedClients], and [getStatus] counts exactly
    the ids listed. *)
Theorem registry_keys_unique (c : WebSocketConfig) (h : MessageHandlers) (e : Env)
    (os : list Op) :
  let b := this (run_ops os (built c h e)) in
  List.NoDup (getConnectedClients b) /\
  connectedClients (getStatus b) = length (getConnectedClients b).
Proof.
  split.
  - apply (run_ops_keeps (fun b => List.NoDup (getConnectedClients b))).
    + intros o w. apply step_keys_unique.
    + constructor.
  - unfold getStatus, getConnectedClients, Map_keys. simpl. rewrite length_map. reflexivity.
Qed.

(** X25. In every such state, every registered id is one that
    [generateClientId] spelled: it starts with "client_"; the sentinel
    "unknown" and the empty string are never registered. *)
Theorem registry_keys_generated (c : WebSocketConfig) (h : MessageHandlers) (e : Env)
    (os : list Op) :
  let b := this (run_ops os (built c h e)) in
  Forall (fun id => is_generated id = true) (getConnectedClients b) /\
  Map_get "unknown" (clients b) = None /\
  Map_get "" (clients b) = None.
Proof.
  intros b.
  assert (Hg : Forall (fun id => is_generated id = true) (getConnectedClients b))
    by apply reachable_keys_generated.
  split; [exact Hg|].
  assert (Hno : forall k, is_generated k = false -> Map_get k (clients b) = None).
  { intros k Hk. apply Map_has_get_none. apply Map_has_keys.
    intros Hin. rewrite List.Forall_forall in Hg. apply Hg in Hin. congruence. }
  split; apply Hno; reflexivity.
Qed.

(** X26. In every such state, an error event on a handle without an id
    leaves the registry as it is: the [delete] of the sentinel finds
    nothing to delete.  (The callback is still called with "unknown".) *)
Theorem unresolved_error_keeps_registry (c : WebSocketConfig) (h : MessageHandlers)
    (e : Env) (os : list Op) (ws : href) (err : Exn) :
  let w := run_ops os (built c h e) in
  truthy (data_clientId (heap (env w) ws)) = false ->
  this (after (handleError ws err) w) = this w /\
  handler_calls (events_of (handleError ws err) w)
  = called (onClientDisconnect (handlers (this w))) EOnClientDisconnect "unknown".
Proof.
  intros w Hf.
  destruct (handleError_shape w ws err) as (tl & He & _ & Ht & Hh & _).
  assert (Hid : js_or (data_clientId (heap (env w) ws)) "unknown" = "unknown").
  { unfold truthy in Hf. unfold js_or.
    destruct (data_clientId (heap (env w) ws)) as [s|]; [|reflexivity].
    apply negb_false_iff in Hf. rewrite Hf. reflexivity. }
  rewrite Hid in *. rewrite (events_of_env _ _ _ He), Ht, Hh.
  split; [|reflexivity].
  rewrite Map_delete_fresh; [apply set_clients_id|].
  pose proof (reachable_keys_generated c h e os) as Hg. fold w in Hg.
  intros Hin. rewrite List.Forall_forall in Hg. apply Hg in Hin. discriminate Hin.
Qed.

Lemma reachable_config (c : WebSocketConfig) (h : MessageHandlers) (e : Env)
    (os : list Op) :
  config (this (run_ops os (built c h e))) = config (new_CCWebSocket c h).
Proof.
  apply (run_ops_keeps (fun b => config b = config (new_CCWebSocket c h))).
  - intros o w Hw. destruct (op_this o w) as (-> & _). exact Hw.
  - reflexivity.
Qed.

(** X27. The configuration is fixed at construction: after any run, the
    bridge holds the configuration its constructor resolved, and
    [getStatus] reports that port and that host. *)
Theorem config_immutable (c : WebSocketConfig) (h : MessageHandlers) (e : Env)
    (os : list Op) :
  let b := this (run_ops os (built c h e)) in
  config b = config (new_CCWebSocket c h) /\
  st_port (getStatus b) = port (config (new_CCWebSocket c h)) /\
  st_host (getStatus b) = host (config (new_CCWebSocket c h)).
Proof.
  intros b. pose proof (reachable_config c h e os) as Hc. fold b in Hc.
  unfold getStatus. simpl. rewrite Hc. auto.
Qed.

(** X23. At any point of a run, the [fetch] callback given to [Bun.serve]
    upgrades a request exactly when its path is the one resolved at
    construction, compared exactly, and [server.upgrade] succeeds; on any
    other path it answers 404 without calling [server.upgrade].  A bridge
    built without a path, or with an empty one, upgrades on "/ws". *)
Theorem fetch_routes (c : WebSocketConfig) (h : MessageHandlers) (e : Env)
    (os : list Op) (pathname : string) (upgrade : bool) :
  let b := this (run_ops os (built c h e)) in
  (fetch b pathname upgrade = Upgraded
   <-> pathname = js_or (cfg_path c) "/ws" /\ upgrade = true) /\
  (fetch b pathname upgrade = NotFound false <-> pathname <> js_or (cfg_path c) "/ws") /\
  (truthy (cfg_path c) = false -> fetch b "/ws" true = Upgraded).
Proof.
  intros b. unfold fetch. pose proof (reachable_config c h e os) as Hc. fold b in Hc.
  rewrite Hc. simpl.
  split; [|split].
  - destruct (String.eqb_spec pathname (js_or (cfg_path c) "/ws")) as [E|E];
      destruct upgrade; split; try tauto; try discriminate; intros [? ?];
      try discriminate; congruence.
  - destruct (String.eqb_spec pathname (js_or (cfg_path c) "/ws")) as [E|E];
      destruct upgrade; split; try tauto; try discriminate; congruence.
  - intros Hf. unfold truthy in Hf. unfold js_or.
    destruct (cfg_path c) as [p|]; [|reflexivity].
    apply negb_false_iff in Hf. rewrite Hf. reflexivity.
Qed.

End Invariants.

(** ** The further properties at work on the sample worlds *)

Module RunMore.

#[local] Existing Instance RefJSON.platform.

Lemma constructor_config_witness :
  let c := {| cfg_port := Some 8080%Z; cfg_host := Some ""; cfg_path := None |} in
  cfg_port c = Some 8080%Z /\
  port (config (new_CCWebSocket c Sample.callbacks)) = 8080%Z /\
  host (config (new_CCWebSocket c Sample.callbacks)) = "localhost" /\
  path (config (new_CCWebSocket c Sample.callbacks)) = "/ws".
Proof.
  intros c. split; [reflexivity|].
  destruct (constructor_config c Sample.callbacks)
    as (Hp & _ & _ & Hh & _ & Hq & _).
  split; [apply (Hp 8080%Z eq_refl); discriminate|].
  split; [apply Hh; right; reflexivity|apply Hq; left; reflexivity].
Defined.

Lemma start_then_start_again_witness :
  server (this Sample.fresh) = None /\
  isRunning (getStatus (this (after start Sample.fresh))) = true /\
  start (after start Sample.fresh)
  = (Throw (Error "WebSocket server is already running"), after start Sample.fresh).
Proof.
  split; [reflexivity|].
  destruct (start_then_start_again (H := RefJSON.platform) Sample.fresh
              (fun c => inr {| hostname := host c; srv_port := port c |})
              Scenes.the_server eq_refl eq_refl eq_refl)
    as (_ & _ & Hr & _ & _ & Hs).
  split; [exact Hr|exact Hs].
Defined.

Lemma start_failure_stays_stopped_witness :
  Bun_serve (env Sample.stuck) = None /\
  result start Sample.stuck
  = Throw (Error "Bun.serve is not available. Please run this code in a Bun environment.") /\
  this (after start Sample.stuck) = this Sample.stuck.
Proof.
  split; [reflexivity|].
  destruct (start_failure_stays_stopped (H := RefJSON.platform) Sample.stuck
              (Error "Bun.serve is not available. Please run this code in a Bun environment.")
              eq_refl (or_introl (conj eq_refl eq_refl)))
    as (Hr & Ht & _).
  split; [exact Hr|exact Ht].
Defined.

Lemma stop_closes_every_client_witness :
  server (this Sample.world) = Some Scenes.the_server /\
  closes_of (events_of stop Sample.world) = [0; 1; 2] /\
  sends_of (events_of stop Sample.world) = [].
Proof.
  split; [reflexivity|].
  destruct (stop_closes_every_client Sample.world
              Scenes.the_server eq_refl)
    as (_ & Hc & _ & Hs).
  split; [exact Hc|exact Hs].
Defined.

Lemma stop_then_start_witness :
  server (this Sample.world) = Some Scenes.the_server /\
  server (this (after start (after stop Sample.world))) = Some Scenes.the_server /\
  clients (this (after start (after stop Sample.world))) = [].
Proof.
  split; [reflexivity|].
  destruct (stop_then_start (H := RefJSON.platform) Sample.world
              Scenes.the_server Scenes.the_server
              (fun c => inr {| hostname := host c; srv_port := port c |})
              eq_refl eq_refl eq_refl)
    as (_ & Hs & Hc & _).
  split; [exact Hs|exact Hc].
Defined.


Lemma dispatch_in_order_witness :
  JSON_parse Scenes.chat_frame
  = inr (JObj [("type", JStr "chat"); ("data", JArr [JNum 1; JNum 2])]) /\
  events_of (handleMessage 0 Scenes.chat_frame) Sample.world
  = [EOnMessage {| cm_type := Some (JStr "chat");
                   cm_data := Some (JArr [JNum 1; JNum 2]);
                   cm_timestamp := 1700000000000; cm_clientId := "client_1_a" |};
     EOnCustomMessage (Some (JStr "chat"), Some (JArr [JNum 1; JNum 2]), "client_1_a")] /\
  sends_of (events_of (handleMessage 0 Scenes.chat_frame) Sample.world) = [].
Proof.
  split; [reflexivity|].
  destruct (dispatch_in_order (H := RefJSON.platform) Sample.world 0 Scenes.chat_frame
              (JObj [("type", JStr "chat"); ("data", JArr [JNum 1; JNum 2])])
              (Some (JStr "chat")) (Some (JArr [JNum 1; JNum 2]))
              eq_refl eq_refl eq_refl eq_refl eq_refl eq_refl)
    as (_ & Hh & Hs & _).
  split; [exact Hh|exact Hs].
Defined.

Lemma onCustomMessage_throw_error_reply_witness :
  JSON_parse Scenes.chat_frame
  = inr (JObj [("type", JStr "chat"); ("data", JArr [JNum 1; JNum 2])]) /\
  result (handleMessage 0 Scenes.chat_frame) Scenes.strict = Ok tt /\
  map fst (sends_of (events_of (handleMessage 0 Scenes.chat_frame) Scenes.strict)) = [0].
Proof.
  split; [reflexivity|].
  destruct (onCustomMessage_throw_error_reply (H := RefJSON.platform) Scenes.strict 0
              Scenes.chat_frame
              (JObj [("type", JStr "chat"); ("data", JArr [JNum 1; JNum 2])])
              (Some (JStr "chat")) (Some (JArr [JNum 1; JNum 2]))
              (Raised (Error "custom failed"))
              eq_refl eq_refl eq_refl eq_refl eq_refl eq_refl eq_refl)
    as (Hr & _ & Hs & _).
  split; [exact Hr|]. rewrite Hs. reflexivity.
Defined.

Lemma callback_throws_nullish_escapes_witness :
  JSON_parse Scenes.chat_frame
  = inr (JObj [("type", JStr "chat"); ("data", JArr [JNum 1; JNum 2])]) /\
  result (handleMessage 0 Scenes.chat_frame) Scenes.careless
  = Throw (Raised (Error "null is not an object (evaluating 'error.message')")) /\
  sends_of (events_of (handleMessage 0 Scenes.chat_frame) Scenes.careless) = [].
Proof.
  split; [reflexivity|].
  destruct (callback_throws_nullish_escapes (H := RefJSON.platform) Scenes.careless 0
              Scenes.chat_frame
              (JObj [("type", JStr "chat"); ("data", JArr [JNum 1; JNum 2])])
              (Some (JStr "chat")) (Some (JArr [JNum 1; JNum 2])) JSNull
              eq_refl eq_refl eq_refl eq_refl eq_refl)
    as (Hr & Hs & _).
  split; [exact Hr|exact Hs].
Defined.

Lemma null_frame_error_reply_witness :
  JSON_parse "null" = inr JNull /\
  handler_calls (events_of (handleMessage 0 "null") Sample.world) = [] /\
  map fst (sends_of (events_of (handleMessage 0 "null") Sample.world)) = [0].
Proof.
  split; [reflexivity|].
  destruct (null_frame_error_reply (H := RefJSON.platform) Sample.world 0 "null" eq_refl)
    as (_ & Hh & Hs & _).
  split; [exact Hh|]. rewrite Hs. reflexivity.
Defined.

Lemma non_object_frame_dispatched_witness :
  JSON_parse "42" = inr (JNum 42) /\
  handler_calls (events_of (handleMessage 0 "42") Sample.world)
  = [EOnMessage {| cm_type := None; cm_data := None;
                   cm_timestamp := 1700000000000; cm_clientId := "client_1_a" |};
     EOnCustomMessage (None, None, "client_1_a")].
Proof.
  split; [reflexivity|].
  exact (proj1 (proj2 (non_object_frame_dispatched (H := RefJSON.platform) Sample.world 0
                         "42" (JNum 42) eq_refl eq_refl eq_refl eq_refl))).
Defined.

Lemma handleOpen_welcome_witness :
  outcome (onClientConnect (handlers (this Sample.world)))
          (id_of_draw (next_draw Sample.world)) = None /\
  handler_calls (events_of (handleOpen 5) Sample.world)
  = [EOnClientConnect "client_1700000000000_0fzyo82mv"] /\
  data (heap (env (after (handleOpen 5) Sample.world)) 5)
  = Some {| clientId := "client_1700000000000_0fzyo82mv";
            connectedAt := 1700000000001 |}.
Proof.
  split; [reflexivity|].
  destruct (handleOpen_welcome (H := RefJSON.platform) Sample.world 5 eq_refl)
    as (_ & _ & Hh & _ & Hd & _).
  split; [exact Hh|exact Hd].
Defined.

Lemma handleOpen_callback_throws_witness :
  result (handleOpen 5) Scenes.strict = Throw (Error "connection refused") /\
  sends_of (events_of (handleOpen 5) Scenes.strict) = [] /\
  Map_get "client_1700000000000_0fzyo82mv"
          (clients (this (after (handleOpen 5) Scenes.strict))) = Some 5.
Proof.
  destruct (handleOpen_callback_throws (H := RefJSON.platform) Scenes.strict 5
              (Raised (Error "connection refused")) eq_refl)
    as (Hr & _ & Hs & Hg).
  split; [exact Hr|]. split; [exact Hs|exact Hg].
Defined.

Lemma handleClose_removes_witness :
  data (heap (env Sample.world) 0)
  = Some {| clientId := "client_1_a"; connectedAt := 1 |} /\
  clients (this (after (handleClose 0) Sample.world))
  = [("client_1_b", 1); ("client_1_c", 2)] /\
  handler_calls (events_of (handleClose 0) Sample.world)
  = [EOnClientDisconnect "client_1_a"].
Proof.
  split; [reflexivity|].
  assert (Hne : "client_1_a" <> "") by discriminate.
  destruct (handleClose_removes Sample.world 0
              {| clientId := "client_1_a"; connectedAt := 1 |} eq_refl Hne)
    as (Hc & _ & _ & Hh & _).
  split; [exact Hc|exact Hh].
Defined.

Lemma handleClose_unresolved_witness :
  truthy (data_clientId (heap (env Sample.world) 5)) = false /\
  handleClose 5 Sample.world = (Ok tt, Sample.world).
Proof.
  split; [reflexivity|].
  exact (handleClose_unresolved Sample.world 5 eq_refl).
Defined.

Lemma open_close_roundtrip_witness :
  ~ In (id_of_draw (next_draw Sample.world)) (Map_keys (clients (this Sample.world))) /\
  clients (this (after (handleClose 5) (after (handleOpen 5) Sample.world)))
  = clients (this Sample.world).
Proof.
  assert (Hn : ~ In (id_of_draw (next_draw Sample.world))
                    (Map_keys (clients (this Sample.world)))).
  { vm_compute. intuition discriminate. }
  split; [exact Hn|].
  exact (proj2 (proj2 (open_close_roundtrip (H := RefJSON.platform) Sample.world 5 Hn))).
Defined.

Lemma close_then_sendToClient_witness :
  data (heap (env Sample.world) 0)
  = Some {| clientId := "client_1_a"; connectedAt := 1 |} /\
  sends_of (events_of (sendToClient "client_1_a" JNull "evt")
                      (after (handleClose 0) Sample.world)) = [].
Proof.
  split; [reflexivity|].
  assert (Hne : "client_1_a" <> "") by discriminate.
  exact (proj1 (proj2 (close_then_sendToClient (H := RefJSON.platform) Sample.world 0
                         {| clientId := "client_1_a"; connectedAt := 1 |} JNull "evt"
                         eq_refl Hne))).
Defined.

Lemma handleError_like_handleClose_witness :
  data (heap (env Sample.world) 1)
  = Some {| clientId := "client_1_b"; connectedAt := 1 |} /\
  this (after (handleError 1 (Error "reset")) Sample.world)
  = this (after (handleClose 1) Sample.world).
Proof.
  split; [reflexivity|].
  assert (Hne : "client_1_b" <> "") by discriminate.
  exact (proj1 (handleError_like_handleClose Sample.world 1
                  {| clientId := "client_1_b"; connectedAt := 1 |} (Error "reset")
                  eq_refl Hne)).
Defined.

Lemma error_then_close_notifies_twice_witness :
  data (heap (env Sample.world) 1)
  = Some {| clientId := "client_1_b"; connectedAt := 1 |} /\
  handler_calls (events_of (handleClose 1)
                           (after (handleError 1 (Error "reset")) Sample.world))
  = [EOnClientDisconnect "client_1_b"].
Proof.
  split; [reflexivity|].
  assert (Hne : "client_1_b" <> "") by discriminate.
  exact (proj2 (proj2 (error_then_close_notifies_twice
                         Sample.world 1
                         {| clientId := "client_1_b"; connectedAt := 1 |} (Error "reset")
                         (fun _ => None) eq_refl Hne eq_refl))).
Defined.

Lemma isClientConnected_iff_unicast_writes_witness :
  server (this Sample.world) = Some Scenes.the_server /\
  isClientConnected "client_1_a" Sample.world = Some true /\
  sends_of (events_of (sendToClient "client_1_a" JNull "evt") Sample.world) <> [] /\
  isClientConnected "nobody" Sample.world = None /\
  warnings (events_of (sendToClient "nobody" JNull "evt") Sample.world)
  = [["Client nobody not found"]].
Proof.
  split; [reflexivity|]. split; [reflexivity|].
  split.
  - exact (proj1 (proj1 (isClientConnected_iff_unicast_writes (H := RefJSON.platform)
                           Sample.world "client_1_a" JNull "evt" Scenes.the_server
                           eq_refl)) eq_refl).
  - split; [reflexivity|].
    exact (proj2 (proj2 (isClientConnected_iff_unicast_writes (H := RefJSON.platform)
                           Sample.world "nobody" JNull "evt" Scenes.the_server
                           eq_refl) eq_refl)).
Defined.

Lemma send_removes_exactly_failed_witness :
  server (this Sample.world) = Some Scenes.the_server /\
  List.NoDup (Map_keys (clients (this Sample.world))) /\
  clients (this (after (send JNull "evt") Sample.world))
  = [("client_1_a", 0); ("client_1_c", 2)].
Proof.
  assert (Hnd : List.NoDup (Map_keys (clients (this Sample.world)))).
  { vm_compute. repeat (constructor; [simpl; intuition discriminate|]); constructor. }
  split; [reflexivity|]. split; [exact Hnd|].
  exact (proj1 (send_removes_exactly_failed (H := RefJSON.platform) Sample.world JNull
                  "evt" Scenes.the_server eq_refl Hnd)).
Defined.

Lemma send_trace_witness :
  server (this Sample.world) = Some Scenes.the_server /\
  logs (events_of (send JNull "evt") Sample.world) = [["📤 Sent evt to 1 client(s)"]] /\
  handler_calls (events_of (send JNull "evt") Sample.world) = [].
Proof.
  split; [reflexivity|].
  destruct (send_trace (H := RefJSON.platform) Sample.world JNull "evt"
              Scenes.the_server eq_refl)
    as (Ht & Hh & _).
  split; [rewrite Ht; reflexivity|exact Hh].
Defined.

Lemma outbound_envelope_literal_witness :
  server (this Sample.world) = Some Scenes.the_server /\
  Map_get "client_1_a" (clients (this Sample.world)) = Some 0 /\
  sends_of (events_of (sendToClient "client_1_a" JNull "evt") Sample.world)
  = [(0, JSON_stringify
           (JObj [("type", JStr "evt"); ("data", JNull);
                  ("timestamp", JNum 1700000000000); ("clientId", JStr "client_1_a")]))].
Proof.
  split; [reflexivity|]. split; [reflexivity|].
  exact (proj2 (outbound_envelope_literal (H := RefJSON.platform) Sample.world
                  "client_1_a" JNull "evt" Scenes.the_server 0 eq_refl)
               eq_refl eq_refl).
Defined.

Lemma fetch_routes_witness :
  let b := this (run_ops [OStart; OOpen 5]
                   (built Scenes.no_config Sample.callbacks Sample.environment)) in
  truthy (cfg_path Scenes.no_config) = false /\
  fetch b "/ws" true = Upgraded /\
  fetch b "/ws/" true = NotFound false.
Proof.
  split; [reflexivity|].
  split.
  - exact (proj2 (proj2 (fetch_routes (H := RefJSON.platform) Scenes.no_config
                           Sample.callbacks Sample.environment [OStart; OOpen 5]
                           "/ws" true)) eq_refl).
  - apply (proj1 (proj2 (fetch_routes (H := RefJSON.platform) Scenes.no_config
                           Sample.callbacks Sample.environment [OStart; OOpen 5]
                           "/ws/" true))).
    discriminate.
Defined.

Lemma unresolved_error_keeps_registry_witness :
  let os := [OStart; OOpen 5; OOpen 6; OClose 5] in
  let w := run_ops os (built Scenes.no_config Sample.callbacks Sample.environment) in
  truthy (data_clientId (heap (env w) 7)) = false /\
  length (clients (this w)) = 1 /\
  this (after (handleError 7 (Error "reset")) w) = this w.
Proof.
  split; [reflexivity|]. split; [reflexivity|].
  exact (proj1 (unresolved_error_keeps_registry (H := RefJSON.platform) Scenes.no_config
                  Sample.callbacks Sample.environment
                  [OStart; OOpen 5; OOpen 6; OClose 5] 7 (Error "reset") eq_refl)).
Defined.

End RunMore.
